(** * roastme: the API-access core, embedded and checked against its specification

    Embedded sources:
    - [src/utils/config.js]            (constants [API_CONFIG], [UPLOAD_CONSTRAINTS])
    - [src/services/fileValidator.js]  (class [FileValidator])
    - [src/utils/corsProxy.js]         (class [CorsProxy])
    - [src/services/openaiClient.js]   (class [OpenAIClient])
    - [src/services/imageProcessor.js] (class [ImageProcessor], the conversion and its metrics)

    Conventions of the embedding.
    - A JavaScript string is a [string]; its characters stand for code units
      below 256.
    - A JavaScript number is a rational [Q]: arithmetic is exact, the rounding
      of IEEE doubles and the value NaN are not represented.
    - An [async] method is a function in a state-and-exception monad over the
      client state and an abstract [World] (clock, timers, network): a thrown
      value or a rejected promise is the [inr] outcome, and the state reached
      when the exception was raised is kept, as in JavaScript. *)

From Stdlib Require Import ZArith QArith Qround Qminmax List String Ascii Bool Lia Arith.
From Equations Require Import Equations.
Import ListNotations.

Set Warnings "-register-all".
Local Open Scope list_scope.
Local Open Scope string_scope.

(** ** JavaScript values *)

Module Js.

(** The values the embedded code handles: JSON data, inherited members of
    [Object.prototype] (opaque callables [VFun]) and promises. *)
Inductive value : Type :=
| VUndefined
| VNull
| VBool (b : bool)
| VNum (q : Q)
| VStr (s : string)
| VArr (items : list value)
| VObj (props : list (string * value))
| VFun (name : string)
| VPromise (settled : value).

(** ToBoolean. *)
Definition truthy (v : value) : bool :=
  match v with
  | VUndefined | VNull => false
  | VBool b => b
  | VNum q => negb (Qeq_bool q 0)
  | VStr s => negb (s =? "")
  | VArr _ | VObj _ | VFun _ | VPromise _ => true
  end.

(** [a || b]. *)
Definition or (a b : value) : value := if truthy a then a else b.

(** A thrown [Error]: only its [message] is ever read. *)
Record error : Type := Error { message : option string }.

Definition TypeError (msg : string) : error := Error (Some msg).

(** Own-property lookup in an object literal (first binding wins). *)
Fixpoint own (props : list (string * value)) (k : string) : option value :=
  match props with
  | [] => None
  | (k', v) :: rest => if k' =? k then Some v else own rest k
  end.

(** The members every ordinary object inherits from [Object.prototype]. *)
Definition object_prototype : list string :=
  [ "constructor"; "hasOwnProperty"; "isPrototypeOf"; "propertyIsEnumerable";
    "toLocaleString"; "toString"; "valueOf";
    "__defineGetter__"; "__defineSetter__"; "__lookupGetter__"; "__lookupSetter__" ].

(** [obj[k]] on an object literal [{ props }]: own properties first, then the
    prototype ([__proto__] reads the prototype object itself). *)
Definition lookup (props : list (string * value)) (k : string) : value :=
  match own props k with
  | Some v => v
  | None =>
      if existsb (String.eqb k) object_prototype then VFun k
      else if k =? "__proto__" then VObj []
      else VUndefined
  end.

(** [v.k] for a data key [k].  The keys read by the embedded code on parsed
    JSON ([choices], [message], [content], [usage], [total_tokens], [error],
    [code]) are members of no built-in prototype, so only an own property of an
    object can supply them; reading a member of [null] or [undefined] throws. *)
Definition get (v : value) (k : string) : value + error :=
  match v with
  | VUndefined | VNull => inr (TypeError "Cannot read properties of undefined")
  | VObj props => inl (lookup props k)
  | _ => inl VUndefined
  end.

(** [v?.k]. *)
Definition get_opt (v : value) (k : string) : value :=
  match v with
  | VObj props => lookup props k
  | _ => VUndefined
  end.

(** [v[0]] on a value that is neither [null] nor [undefined]. *)
Definition first (v : value) : value :=
  match v with
  | VArr (x :: _) => x
  | VStr (String c _) => VStr (String c "")
  | VObj props => lookup props "0"
  | _ => VUndefined
  end.

(** [v === s] for a string literal [s]. *)
Definition is_string (v : value) (s : string) : bool :=
  match v with
  | VStr s' => s' =? s
  | _ => false
  end.

(** [s.includes(t)]. *)
Fixpoint includes (s t : string) : bool :=
  String.prefix t s ||
  match s with
  | EmptyString => false
  | String _ s' => includes s' t
  end.

(** [s.startsWith(t)]. *)
Definition startsWith (s t : string) : bool := String.prefix t s.

End Js.

(** ** [src/utils/config.js] *)

Module Config.

Definition OPENAI_MODEL : string := "gpt-4o".
Definition MAX_TOKENS : Q := 300.
Definition TEMPERATURE : Q := 9 # 10.

Definition MAX_FILE_SIZE_BYTES : Z := 5 * 1024 * 1024.
Definition SUPPORTED_FORMATS : list string :=
  [ "image/jpeg"; "image/png"; "image/gif"; "image/webp" ].

End Config.

(** ** [src/services/fileValidator.js] *)

Module FileValidator.

(** What the read of the first four bytes comes to.  [validateFileHeaders]
    calls [file.slice(0, 4)] and [reader.readAsArrayBuffer] inside the
    executor of its promise: when one of them throws (an object without a
    [slice] method, a reader that refuses its argument) the promise is
    rejected with that error; otherwise the reader ends in [onload], with the
    bytes read, or in [onerror]. *)
Inductive read_outcome : Type :=
| Loaded (bytes : list Z)
| ReadFailed
| Threw (e : Js.error).

(** [file.size]: a number (an integer byte count), or a value of another type
    together with the number that the comparison [>] converts it to ([None]
    for [NaN], as for [undefined]; the string ['6000000'] converts to
    6000000). *)
Inductive size_value : Type :=
| Number (n : Z)
| NotNumber (converted : option Q).

(** A file-like object as the validator inspects it: [name] is the object's
    own property [name], a string, and [None] when the object has no own
    property of that name (a genuine [File] inherits [name] from
    [File.prototype]); [type] is [None] unless [typeof file.type === 'string'];
    [header] is what reading [file.slice(0, 4)] comes to. *)
Record File : Type := mkFile {
  name : option string;
  size : size_value;
  type : option string;
  header : read_outcome
}.

Inductive error_type : Type :=
| missing_file
| file_invalid
| file_size
| file_format.

Record file_info : Type := mkInfo {
  info_size : Z;
  info_type : string;
  info_name : string
}.

(** [{ isValid: true, ... }] or [{ isValid: false, error: { type, message } }]. *)
Inductive result : Type :=
| Valid (details : option (string * file_info))
| Invalid (kind : error_type) (msg : string).

Definition isValid (r : result) : bool :=
  match r with Valid _ => true | Invalid _ _ => false end.

(** [result.error.type], when there is an error. *)
Definition kind (r : result) : option error_type :=
  match r with Valid _ => None | Invalid k _ => Some k end.

Definition format_message : string :=
  "Please upload JPEG, PNG, GIF, or WebP images only.".

(** [file.size > MAX_FILE_SIZE_BYTES]; a comparison with [NaN] is false. *)
Definition exceeds (sz : size_value) : bool :=
  match sz with
  | Number n => (n >? Config.MAX_FILE_SIZE_BYTES)%Z
  | NotNumber (Some q) => negb (Qle_bool q (inject_Z Config.MAX_FILE_SIZE_BYTES))
  | NotNumber None => false
  end.

(** [validateFileSize(file)]: [!file || file.size === 0] (strict equality:
    only the number 0), then [file.size > MAX_FILE_SIZE_BYTES]. *)
Definition validateFileSize (file : option File) : result :=
  match file with
  | None => Invalid file_invalid "File is empty or corrupted"
  | Some f =>
      match size f with
      | Number 0%Z => Invalid file_invalid "File is empty or corrupted"
      | sz =>
          if exceeds sz
          then Invalid file_size
                 "File size exceeds 5MB limit. Please choose a smaller image."
          else Valid None
      end
  end.

(** [validateFileFormat(file)]: [!file || !file.type], then
    [SUPPORTED_FORMATS.includes(file.type)]. *)
Definition validateFileFormat (file : option File) : result :=
  match file with
  | None => Invalid file_format format_message
  | Some f =>
      match type f with
      | None | Some "" => Invalid file_format format_message
      | Some t =>
          if existsb (String.eqb t) Config.SUPPORTED_FORMATS
          then Valid None
          else Invalid file_format format_message
      end
  end.

(** [file.type] is a string that [SUPPORTED_FORMATS.includes]. *)
Definition supported (f : File) : bool :=
  match type f with
  | Some t => existsb (String.eqb t) Config.SUPPORTED_FORMATS
  | None => false
  end.

(** [checkMagicNumbers(bytes, mimeType)]: the shipped check accepts everything. *)
Definition checkMagicNumbers (bytes : list Z) (mimeType : option string) : bool :=
  true.

(** [validateFileHeaders(file)], settled: resolved from [onload] or [onerror],
    or rejected with what the executor threw. *)
Definition validateFileHeaders (f : File) : result + Js.error :=
  match header f with
  | Loaded bytes =>
      if checkMagicNumbers (firstn 4 bytes) (type f) then inl (Valid None)
      else inl (Invalid file_invalid "File header does not match file type")
  | ReadFailed => inl (Invalid file_invalid "Unable to read file header")
  | Threw e => inr e
  end.

Section Validate.

(** [sanitizeFilename] only decorates an accepted file; no verdict reads it. *)
Variable sanitizeFilename : string -> string.

(** [validateFile(file)], settled; [None] is a falsy argument.  The
    [await] passes a rejection of [validateFileHeaders] on to the caller. *)
Definition validateFile (file : option File) : result + Js.error :=
  match file with
  | None => inl (Invalid missing_file "No file provided")
  | Some f =>
      match name f, size f, type f with
      | Some nm, Number sz, Some ty =>
          let sizeCheck := validateFileSize file in
          if negb (isValid sizeCheck) then inl sizeCheck else
          let formatCheck := validateFileFormat file in
          if negb (isValid formatCheck) then inl formatCheck else
          match validateFileHeaders f with
          | inr e => inr e
          | inl headerCheck =>
              if negb (isValid headerCheck) then inl headerCheck else
              inl (Valid (Some (sanitizeFilename nm, mkInfo sz ty nm)))
          end
      | _, _, _ => inl (Invalid file_invalid "Invalid file object provided")
      end
  end.

End Validate.

(** [result.error.type] of a settled call; [None] when it is valid or was
    rejected. *)
Definition verdict_kind (v : result + Js.error) : option error_type :=
  match v with
  | inl r => kind r
  | inr _ => None
  end.

End FileValidator.

(** ** The environment of the asynchronous code *)

(** A fetch [Response] (or the response-like object a test double returns):
    [json] is the value [response.json()] resolves to, [None] when it rejects. *)
Record Response : Type := mkResponse {
  ok : bool;
  status : Z;
  json : option Js.value
}.

(** The [init] argument of [fetch]; [Body] is the payload before
    [JSON.stringify]. *)
Record Init (Body : Type) : Type := mkInit {
  method : string;
  headers : list (string * string);
  body : option Body;
  mode : option string;
  timeout : option Q
}.
Arguments mkInit {Body}.
Arguments method {Body}.
Arguments headers {Body}.
Arguments body {Body}.
Arguments mode {Body}.
Arguments timeout {Body}.

(** [{ ...headers, [k]: v }]. *)
Fixpoint set_header (hs : list (string * string)) (k v : string)
  : list (string * string) :=
  match hs with
  | [] => [(k, v)]
  | (k', v') :: rest =>
      if k' =? k then (k, v) :: rest else (k', v') :: set_header rest k v
  end.

(** What the code reaches outside itself: the clocks, timers, the network and
    the globals it probes. *)
Record Env (Body : Type) : Type := mkEnv {
  World : Type;
  performance_now : World -> Q;
  Date_now : World -> Z;
  sleep : Q -> World -> World;
  fetch : string -> Init Body -> World -> (Response + Js.error) * World;
  encodeURIComponent : string -> string;
  jest_defined : bool;
  hostname : string
}.
Arguments World {Body}.
Arguments performance_now {Body}.
Arguments Date_now {Body}.
Arguments sleep {Body}.
Arguments fetch {Body}.
Arguments encodeURIComponent {Body}.
Arguments jest_defined {Body}.
Arguments hostname {Body}.

(** State and exceptions: a computation returns a value or throws, and always
    leaves a state. *)
Definition M (S A : Type) : Type := S -> (A + Js.error) * S.

Definition ret {S A} (a : A) : M S A := fun s => (inl a, s).

Definition throw {S A} (e : Js.error) : M S A := fun s => (inr e, s).

Definition bind {S A B} (c : M S A) (k : A -> M S B) : M S B :=
  fun s =>
    match c s with
    | (inl a, s') => k a s'
    | (inr e, s') => (inr e, s')
    end.

(** [try { c } catch (e) { h e }]. *)
Definition try_catch {S A} (c : M S A) (h : Js.error -> M S A) : M S A :=
  fun s =>
    match c s with
    | (inl a, s') => (inl a, s')
    | (inr e, s') => h e s'
    end.

(** A synchronous expression that may throw. *)
Definition lift {S A} (r : A + Js.error) : M S A := fun s => (r, s).

Declare Scope js_scope.
Delimit Scope js_scope with js.
Notation "x <- c ;; k" := (bind c (fun x => k))
  (at level 61, c at next level, right associativity) : js_scope.
Notation "c ;;; k" := (bind c (fun _ => k))
  (at level 61, right associativity) : js_scope.

(** ** [src/utils/corsProxy.js] *)

Module CorsProxy.

Definition CORS_PROXY : string := "https://corsproxy.io/?".
Definition CUSTOM_PROXY_URL : string := "/api/proxy".
Definition OPENAI_BASE_URL : string := "https://api.openai.com/v1".

(** [PROXY_STRATEGIES]: strategies are plain strings. *)
Definition DIRECT : string := "direct".
Definition CORS_PROXY_STRATEGY : string := "cors_proxy".
Definition CUSTOM_PROXY : string := "custom".
Definition MOCK : string := "mock".

(** The constructor argument [config]. *)
Record config : Type := mkConfig {
  cfg_strategy : option string;
  cfg_customProxyUrl : option string;
  cfg_fallbackStrategies : option (list string)
}.

(** The fields of an instance. *)
Record proxy : Type := mkProxy {
  strategy : string;
  customProxyUrl : string;
  fallbackStrategies : list string
}.

(** [x || d] for an optional string field. *)
Definition string_or (x : option string) (d : string) : string :=
  match x with
  | Some s => if s =? "" then d else s
  | None => d
  end.

(** String conversion of [this.customProxyUrl] in a template or a [+]. *)
Definition show (x : option string) : string :=
  match x with Some s => s | None => "undefined" end.

Definition mockData (created : Z) : Js.value :=
  Js.VObj
    [ ("id", Js.VStr "chatcmpl-mock-123");
      ("object", Js.VStr "chat.completion");
      ("created", Js.VNum (inject_Z created));
      ("model", Js.VStr "gpt-4-vision-preview");
      ("choices",
        Js.VArr
          [ Js.VObj
              [ ("index", Js.VNum 0);
                ("message",
                  Js.VObj
                    [ ("role", Js.VStr "assistant");
                      ("content",
                        Js.VStr "This is a mock roast response for testing purposes! Your photo is so generic, it could be the default wallpaper for disappointment.") ]);
                ("finish_reason", Js.VStr "stop") ] ]);
      ("usage",
        Js.VObj
          [ ("prompt_tokens", Js.VNum 85);
            ("completion_tokens", Js.VNum 32);
            ("total_tokens", Js.VNum 117) ]) ].

Section Proxy.

Context {Body : Type}.
Variable env : Env Body.

Local Abbreviation W := (World env).

(** [getDefaultFallbacks()]. *)
Definition getDefaultFallbacks : list string :=
  if jest_defined env then [] else [DIRECT].

(** [isCustomProxyAvailable()]: an [async] method, so the caller receives a
    promise; the promise settles to [response.ok], or to [false] when the
    probe throws.  The probe is issued by the call, and nothing awaits it.
    [url] is [this.customProxyUrl] at the time of the call. *)
Definition isCustomProxyAvailable (url : option string) (w : W)
  : Js.value * W :=
  match fetch env (show url ++ "/health")
          (mkInit "GET" [] None None (Some 2000)) w with
  | (inl response, w') => (Js.VPromise (Js.VBool (ok response)), w')
  | (inr _, w') => (Js.VPromise (Js.VBool false), w')
  end.

(** [detectBestStrategy()]. *)
Definition detectBestStrategy (url : option string) (w : W) : string * W :=
  if jest_defined env then (MOCK, w)
  else
    let (available, w') := isCustomProxyAvailable url w in
    if Js.truthy available then (CUSTOM_PROXY, w')
    else if (hostname env =? "localhost") || (hostname env =? "127.0.0.1")
    then (CORS_PROXY_STRATEGY, w')
    else (CORS_PROXY_STRATEGY, w').

(** [new CorsProxy(config)]: [strategy] is chosen before [customProxyUrl] is
    assigned, so detection runs with the field still [undefined]. *)
Definition new (c : config) (w : W) : proxy * W :=
  let (chosen, w') :=
    match cfg_strategy c with
    | Some s => if s =? "" then detectBestStrategy None w else (s, w)
    | None => detectBestStrategy None w
    end in
  (mkProxy chosen
     (string_or (cfg_customProxyUrl c) CUSTOM_PROXY_URL)
     (match cfg_fallbackStrategies c with
      | Some l => l
      | None => getDefaultFallbacks
      end),
   w').

Definition directRequest (url : string) (options : Init Body) : M W Response :=
  fetch env url
    (mkInit (method options)
       (set_header (headers options) "Content-Type" "application/json")
       (body options) (Some "cors") (timeout options)).

Definition corsProxyRequest (url : string) (options : Init Body) : M W Response :=
  fetch env (CORS_PROXY ++ encodeURIComponent env url)
    (mkInit (method options)
       (set_header
          (set_header (headers options) "Content-Type" "application/json")
          "X-Requested-With" "XMLHttpRequest")
       (body options) (mode options) (timeout options)).

Definition customProxyRequest (p : proxy) (endpoint : string)
  (options : Init Body) : M W Response :=
  fetch env (customProxyUrl p ++ "/" ++ endpoint)
    (mkInit (method options)
       (set_header (headers options) "Content-Type" "application/json")
       (body options) (mode options) (timeout options)).

(** [mockRequest]: a 100 ms timer, then a canned 200 response; both branches on
    [typeof Response] yield the same [ok], [status] and JSON. *)
Definition mockRequest (endpoint : string) (options : Init Body) : M W Response :=
  fun w =>
    let w' := sleep env 100 w in
    (inl (mkResponse true 200 (Some (mockData (Date_now env w' / 1000)%Z))), w').

(** [executeStrategy(strategy, endpoint, options)]. *)
Definition executeStrategy (p : proxy) (s : string) (endpoint : string)
  (options : Init Body) : M W Response :=
  let fullUrl := OPENAI_BASE_URL ++ "/" ++ endpoint in
  if s =? DIRECT then directRequest fullUrl options
  else if s =? CORS_PROXY_STRATEGY then corsProxyRequest fullUrl options
  else if s =? CUSTOM_PROXY then customProxyRequest p endpoint options
  else if s =? MOCK then mockRequest endpoint options
  else throw (Js.Error (Some ("Unknown strategy: " ++ s))).

(** The [for ... of strategies] loop of [makeRequest]: a response is returned
    only when [response.ok]; a non-ok response and a thrown error both move on
    to the next strategy. *)
Fixpoint tryStrategies (p : proxy) (strategies : list string)
  (endpoint : string) (options : Init Body) : M W Response :=
  match strategies with
  | [] => throw (Js.Error (Some "All proxy strategies failed"))
  | s :: rest =>
      fun w =>
        match executeStrategy p s endpoint options w with
        | (inl response, w') =>
            if ok response then (inl response, w')
            else tryStrategies p rest endpoint options w'
        | (inr _, w') => tryStrategies p rest endpoint options w'
        end
  end.

(** [makeRequest(endpoint, options)]. *)
Definition makeRequest (p : proxy) (endpoint : string) (options : Init Body)
  : M W Response :=
  tryStrategies p (strategy p :: fallbackStrategies p) endpoint options.

End Proxy.

End CorsProxy.

(** ** [src/services/openaiClient.js] *)

Module OpenAIClient.

(** *** Data *)

Inductive part : Type :=
| Text (text : Js.value)
| ImageUrl (url : option string).

Record message : Type := mkMessage {
  role : string;
  content : list part
}.

(** The object built by [buildRequestBody]. *)
Record RequestBody : Type := mkRequestBody {
  model : string;
  messages : list message;
  max_tokens : Js.value;
  temperature : Js.value
}.

(** The [options] argument of [generateRoast]; an absent field is
    [Js.VUndefined] ([None] for [persona]). *)
Record Options : Type := mkOptions {
  customPrompt : Js.value;
  persona : option string;
  maxTokens : Js.value;
  opt_temperature : Js.value
}.

(** [options = {}]. *)
Definition no_options : Options :=
  mkOptions Js.VUndefined None Js.VUndefined Js.VUndefined.

Inductive error_type : Type :=
| invalid_input
| image_too_large
| timeout_error
| network_error
| invalid_response
| empty_response
| rate_limit
| api_error
| content_policy
| service_unavailable.

(** [{ type, message, retryAfterSeconds? }]. *)
Record error_info : Type := mkError {
  type : error_type;
  error_message : string;
  retryAfterSeconds : option Q
}.

(** The object [generateRoast] resolves to; a field the object literal does
    not mention is [None]. *)
Record RoastResult : Type := mkResult {
  success : bool;
  roastText : option string;
  processingTimeMs : option Q;
  error : option error_info
}.

(** A statistics field that starts as a number: [Untracked] once something
    other than a number has been added to it. *)
Inductive num : Type :=
| Num (q : Q)
| Untracked.

(** [this.usageStats]. *)
Record UsageStats : Type := mkStats {
  totalRequests : Z;
  totalTokens : num;
  errorCount : Z;
  totalResponseTime : Q;
  estimatedCost : num
}.

(** The constructor's initial counters. *)
Definition new_stats : UsageStats := mkStats 0 (Num 0) 0 0 (Num 0).

(** The object [getUsageStats] returns. *)
Record Report : Type := mkReport {
  rep_totalRequests : Z;
  rep_totalTokens : num;
  errorRate : Q;
  averageResponseTime : Q;
  rep_estimatedCost : num
}.

(** *** Pure helpers *)

(** [{ isValid: true }] or [{ isValid: false, error }]. *)
Inductive validation : Type :=
| ValidInput
| InvalidInput (e : error_info).

(** [10 * 1024 * 1024 * 1.33]. *)
Definition MAX_BASE64_LENGTH : Q := 10 * 1024 * 1024 * (133 # 100).

(** [a > b] on numbers. *)
Definition gt (a b : Q) : bool := negb (Qle_bool a b).

(** [validateInput(base64Image)]; [None] is [null] or [undefined]. *)
Definition validateInput (base64Image : option string) : validation :=
  match base64Image with
  | None | Some "" =>
      InvalidInput (mkError invalid_input "No image provided" None)
  | Some s =>
      if negb (Js.startsWith s "data:image/") then
        InvalidInput (mkError invalid_input "Invalid base64 image format" None)
      else if gt (inject_Z (Z.of_nat (String.length s))) MAX_BASE64_LENGTH then
        InvalidInput (mkError image_too_large "Image too large for processing" None)
      else ValidInput
  end.

(** The object literal [personas] of [getPersonaPrompt]. *)
Definition personas : list (string * Js.value) :=
  [
    ("virat-kohli",
      Js.VStr "DEMOLISH this photo like Virat Kohli would destroy a rival team! Be absolutely RUTHLESS and aggressive. Use cricket sledging - 'This shot has worse technique than a tailender!' Mock their pose like you're mocking a batsman's stance. Be intense, passionate, and brutal. Say things like 'Even a blind umpire would call this OUT!' Show no mercy! MAXIMUM 3-4 lines only.");
    ("arnab-goswami",
      Js.VStr "DESTROY this photo like Arnab Goswami in full attack mode! Be ABSOLUTELY OUTRAGEOUS and dramatic! Scream things like 'HOW DARE THEY take such a photo!' Ask brutal questions - 'WHO told them this pose was acceptable?' Be mercilessly mocking and intense. Make it feel like you're EXPOSING a major scandal! MAXIMUM 3-4 lines only.");
    ("rajinikanth",
      Js.VStr "Roast this photo with Rajinikanth's LEGENDARY swagger but make it SAVAGE! Say 'Mind it!' while brutally mocking everything. Use his style to deliver cutting insults - 'Even my stunts look more realistic than this pose!' Be stylishly brutal and mock with Thalaiva's confidence. Make them feel small with style! MAXIMUM 3-4 lines only.");
    ("shashi-tharoor",
      Js.VStr "INTELLECTUALLY DESTROY this photo using Shashi Tharoor's vocabulary! Use big words to deliver SAVAGE insults. Call them things like 'a paragon of photographic mediocrity' or 'an epitome of aesthetic catastrophe.' Be eloquently brutal and mockingly sophisticated. Make them feel intellectually inferior while roasting mercilessly! MAXIMUM 3-4 lines only.");
    ("bhuvan-bam",
      Js.VStr "SAVAGE this photo like Bhuvan Bam roasting someone! Use YouTube humor to be brutally funny - 'Bhai, yeh photo dekh kar lagta hai filter bhi give up kar gaya!' Be relentlessly mocking with millennial slang. Use 'Samay hai' to mock their timing. Be energetically brutal and don't spare anything! MAXIMUM 3-4 lines only.");
    ("karan-johar",
      Js.VStr "TEAR APART this photo like Karan Johar roasting celebrities on his show! Be glamorously SAVAGE about fashion, pose, everything! Say things like 'Darling, this look is giving me second-hand embarrassment!' Mock their style choices mercilessly. Be fabulously brutal with Bollywood references. Show no mercy, darling! MAXIMUM 3-4 lines only.");
    ("sunil-grover",
      Js.VStr "Channel Gutthi/Dr. Gulati to be INNOCENTLY SAVAGE! Use that sweet voice to deliver brutal roasts - 'Arrey sahab, photo mein kya ho gaya hai aapko?' Be mockingly innocent while being absolutely ruthless. Use Hindi comedy to brutally roast everything visible. Make it hilariously cruel with innocent expressions! MAXIMUM 3-4 lines only.");
    ("jackie-shroff",
      Js.VStr "Roast this photo like Jackie Shroff would - be BINDAAS and brutally honest! Use his signature style - 'Bhidu, yeh kya scene hai?' Be coolly savage and mock everything with his laid-back but cutting humor. Say things like 'Arre yaar, camera bhi confused ho gaya hoga!' Use Mumbai street slang to deliver brutal roasts. Be stylishly ruthless, bhidu! MAXIMUM 3-4 lines only.");
    ("raghu-roadies",
      Js.VStr "ABSOLUTELY DESTROY this photo like Raghu from Roadies! Be FURIOUSLY ANGRY and brutally savage! Scream things like 'WHAT THE HELL is this pose?!' Mock their attitude like you're eliminating them from Roadies. Be aggressively brutal - 'You think this is COOL? This is PATHETIC!' Show pure rage and disgust. Make them feel worthless with your anger! MAXIMUM 3-4 lines only.")
  ].

(** [getPersonaPrompt(persona = 'kapil-sharma')]. *)
Definition getPersonaPrompt (persona : option string) : Js.value :=
  let persona :=
    match persona with Some k => k | None => "kapil-sharma" end in
  Js.or (Js.lookup personas persona) (Js.lookup personas "kapil-sharma").

(** [buildRequestBody(base64Image, options)]. *)
Definition buildRequestBody (base64Image : option string) (options : Options)
  : RequestBody :=
  let prompt := Js.or (customPrompt options) (getPersonaPrompt (persona options)) in
  mkRequestBody Config.OPENAI_MODEL
    [ mkMessage "user" [ Text prompt; ImageUrl base64Image ] ]
    (Js.or (maxTokens options) (Js.VNum Config.MAX_TOKENS))
    (Js.or (opt_temperature options) (Js.VNum Config.TEMPERATURE)).

(** [shouldRetry(error)]: [error.message?.includes(..)] is [undefined], hence
    falsy, when there is no message. *)
Definition shouldRetry (e : Js.error) : bool :=
  match Js.message e with
  | Some m => negb (Js.includes m "401") && negb (Js.includes m "400")
  | None => true
  end.

(** White space and line terminators among the code units below 256. *)
Definition is_space (c : ascii) : bool :=
  match nat_of_ascii c with
  | 9 | 10 | 11 | 12 | 13 | 32 | 160 => true
  | _ => false
  end%nat.

Fixpoint trimStart (s : string) : string :=
  match s with
  | String c r => if is_space c then trimStart r else s
  | EmptyString => EmptyString
  end.

Fixpoint trimEnd (s : string) : string :=
  match s with
  | String c r =>
      let r' := trimEnd r in
      if is_space c && (r' =? "") then EmptyString else String c r'
  | EmptyString => EmptyString
  end.

(** [s.trim()]. *)
Definition trim (s : string) : string := trimEnd (trimStart s).

(** The rest of [s] after its first [>], if it has one: what [[^>]*>] consumes. *)
Fixpoint after_gt (s : string) : option string :=
  match s with
  | String c r => if (c =? ">")%char then Some r else after_gt r
  | EmptyString => None
  end.

(** One attempt of [/<[^>]*>/] at the start of [s]: the remainder after the
    match. *)
Definition match_tag (s : string) : option string :=
  match s with
  | String c r => if (c =? "<")%char then after_gt r else None
  | EmptyString => None
  end.

Definition inspect {A : Type} (a : A) : { b : A | a = b } := exist _ a eq_refl.

(** [s.replace(/<[^>]*>/g, '')]: scan from the left; where the pattern matches,
    drop the match and go on after it, otherwise keep the character. *)
Equations replaceTags (s : string) : string by wf (String.length s) lt :=
  replaceTags EmptyString := EmptyString;
  replaceTags (String c r) with inspect (match_tag (String c r)) := {
    | exist _ (Some rest) H := replaceTags rest;
    | exist _ None _ := String c (replaceTags r) }.
Next Obligation.
  clear replaceTags.
  simpl in H. destruct (c =? "<")%char; [|discriminate].
  revert rest H. induction r as [|d r IH]; simpl; intros rest H; [discriminate|].
  destruct (d =? ">")%char.
  - injection H as <-. lia.
  - specialize (IH _ H). lia.
Qed.

(** [/<[^>]*>/.test(s)]: the pattern matches somewhere in [s]. *)
Fixpoint has_tag (s : string) : bool :=
  match s with
  | String c r =>
      match match_tag s with Some _ => true | None => has_tag r end
  | EmptyString => false
  end.

(** [processSuccessResponse(data, processingTime)]; a member read on [null] or
    [undefined], or [.trim()] on a value that is not a string, throws. *)
Definition processSuccessResponse (data : Js.value) (processingTime : Q)
  : RoastResult + Js.error :=
  match Js.get data "choices" with
  | inr e => inr e
  | inl choices =>
      let content :=
        Js.get_opt (Js.get_opt (Js.first choices) "message") "content" in
      if negb (Js.truthy choices) || negb (Js.truthy content) then
        inl (mkResult false None None
               (Some (mkError invalid_response "Invalid API response format" None)))
      else
        match content with
        | Js.VStr text =>
            let roastText := trim text in
            if roastText =? "" then
              inl (mkResult false None None
                     (Some (mkError empty_response "Empty roast content received" None)))
            else
              let sanitizedText := replaceTags roastText in
              inl (mkResult true (Some sanitizedText) (Some processingTime) None)
        | _ => inr (Js.TypeError "content.trim is not a function")
        end
  end.

(** A failure [{ success: false, ...baseError, error }]. *)
Definition failure (processingTime : Q) (e : error_info) : RoastResult :=
  mkResult false None (Some processingTime) (Some e).

(** [processErrorResponse(response, errorData, processingTime)]. *)
Definition processErrorResponse (response : Response) (errorData : Js.value)
  (processingTime : Q) : RoastResult + Js.error :=
  let baseError := failure processingTime in
  match status response with
  | 429%Z =>
      inl (baseError
             (mkError rate_limit
                "Rate limit exceeded. Please wait before trying again." (Some 60)))
  | 401%Z => inl (baseError (mkError api_error "Invalid API key provided" None))
  | 400%Z =>
      match Js.get errorData "error" with
      | inr e => inr e
      | inl err =>
          if Js.is_string (Js.get_opt err "code") "content_policy_violation" then
            inl (baseError
                   (mkError content_policy "Content violates safety guidelines" None))
          else inl (baseError (mkError api_error "Bad request to API" None))
      end
  | 503%Z =>
      inl (baseError
             (mkError service_unavailable
                "OpenAI service temporarily unavailable" (Some 30)))
  | _ => inl (baseError (mkError api_error "Unknown API error occurred" None))
  end.

(** [acc += v] on a statistics field. *)
Definition add (acc : num) (v : num) : num :=
  match acc, v with
  | Num a, Num b => Num (a + b)
  | _, _ => Untracked
  end.

(** A value as an operand of arithmetic: tracked when it is a number. *)
Definition operand (v : Js.value) : num :=
  match v with
  | Js.VNum q => Num q
  | _ => Untracked
  end.

(** [v * k]. *)
Definition times (v : num) (k : Q) : num :=
  match v with
  | Num a => Num (a * k)
  | Untracked => Untracked
  end.

(** The rate in [updateUsageStats]: [0.00001] per token. *)
Definition COST_PER_TOKEN : Q := 1 # 100000.

(** [getUsageStats()] on the counters [u]. *)
Definition getUsageStats (u : UsageStats) : Report :=
  let totalRequests := totalRequests u in
  mkReport totalRequests (totalTokens u)
    (if (totalRequests >? 0)%Z
     then inject_Z (errorCount u) / inject_Z totalRequests else 0)
    (if (totalRequests >? 0)%Z
     then totalResponseTime u / inject_Z totalRequests else 0)
    (estimatedCost u).

(** The counters after [updateUsageStats(t, false)]. *)
Definition charged (u : UsageStats) (t : Q) : UsageStats :=
  mkStats (totalRequests u + 1) (totalTokens u) (errorCount u + 1)
    (totalResponseTime u + t) (estimatedCost u).

(** The counters after [updateUsageStats(t, true, usage)] when
    [usage.total_tokens || 0] is [tokens]. *)
Definition credited (u : UsageStats) (t : Q) (tokens : num) : UsageStats :=
  mkStats (totalRequests u + 1) (add (totalTokens u) tokens) (errorCount u)
    (totalResponseTime u + t) (add (estimatedCost u) (times tokens COST_PER_TOKEN)).

(** [(data.usage ?? {}).total_tokens || 0] as an operand, for [data] that is
    neither [null] nor [undefined] and whose [usage] is not [null]. *)
Definition reported_tokens (data : Js.value) : num :=
  operand (Js.or (Js.get_opt (Js.get_opt data "usage") "total_tokens") (Js.VNum 0)).

(** *** Vocabulary of the properties *)

(** The kinds of failure whose result object has no [processingTimeMs]. *)
Definition untimed : list error_type :=
  [ invalid_input; image_too_large; invalid_response; empty_response ].

(** The two shapes of a result: a Success has a text, a time and no error; a
    Failure has an error and no text, and it has a time unless its kind is one
    of [untimed]. *)
Definition well_shaped (r : RoastResult) : Prop :=
  (success r = true /\ roastText r <> None /\ error r = None /\
   processingTimeMs r <> None) \/
  (success r = false /\ roastText r = None /\
   exists e, error r = Some e /\
             (processingTimeMs r = None <-> In (type e) untimed)).

(** How one call of [generateRoast] on a valid image ended: with a Success
    whose completion reported [tokens], or with the transport's last word being
    a thrown error or a response that is not ok. *)
Inductive outcome : Type :=
| Succeeded (tokens : Q)
| Failed.

(** The tokens reported along a sequence of calls, and its number of failures. *)
Fixpoint tokens_of (h : list outcome) : Q :=
  match h with
  | [] => 0
  | Succeeded t :: rest => t + tokens_of rest
  | Failed :: rest => tokens_of rest
  end.

Fixpoint failures (h : list outcome) : nat :=
  match h with
  | [] => 0
  | Succeeded _ :: rest => failures rest
  | Failed :: rest => S (failures rest)
  end.

(** *** The asynchronous methods *)

(** What a run leaves in its wake, in order: each call of
    [corsProxy.makeRequest] and each [delay(ms)]. *)
Inductive event : Type :=
| Sent
| Delayed (ms : Q).

Section Client.

Variable env : Env RequestBody.

(** The transport the client imports: [corsProxy.makeRequest]. *)
Variable makeRequest : string -> Init RequestBody -> M (World env) Response.

(** [config.apiKey], [None] when not configured ([null]). *)
Variable apiKey : option string.

(** The client instance together with its environment. *)
Record state : Type := mkState {
  world : World env;
  usageStats : UsageStats;
  trace : list event
}.

Definition maxRetries : nat := 2.

(** [performance.now()]. *)
Definition now : M state Q :=
  fun st => (inl (performance_now env (world st)), st).

(** [await corsProxy.makeRequest('chat/completions', { ... })]. *)
Definition request (requestBody : RequestBody) : M state Response :=
  fun st =>
    let options :=
      mkInit "POST"
        [ ("Authorization",
            "Bearer " ++ match apiKey with Some k => k | None => "null" end);
          ("Content-Type", "application/json") ]
        (Some requestBody) None None in
    let (r, w) := makeRequest "chat/completions" options (world st) in
    (r, mkState w (usageStats st) (trace st ++ [Sent])).

(** [await this.delay(ms)]. *)
Definition delay (ms : Q) : M state unit :=
  fun st =>
    (inl tt,
     mkState (sleep env ms (world st)) (usageStats st) (trace st ++ [Delayed ms])).

(** [Math.pow(2, retryCount) * 1000]. *)
Definition backoff (retryCount : nat) : Q :=
  inject_Z (2 ^ Z.of_nat retryCount) * 1000.

(** [makeRequestWithRetry(requestBody, retryCount = 0)]. *)
Equations makeRequestWithRetry (requestBody : RequestBody) (retryCount : nat)
  (st : state) : (Response + Js.error) * state
  by wf (maxRetries - retryCount)%nat lt :=
  makeRequestWithRetry requestBody retryCount st with request requestBody st := {
    | (inl response, st1) := (inl response, st1);
    | (inr err, st1) with lt_dec retryCount maxRetries := {
      | left _ with shouldRetry err := {
        | true :=
            makeRequestWithRetry requestBody (S retryCount)
              (snd (delay (backoff retryCount) st1));
        | false := (inr err, st1) };
      | right _ := (inr err, st1) } }.
Next Obligation.
  clear makeRequestWithRetry.
  unfold maxRetries in *. destruct retryCount as [|[|n]]; simpl; lia.
Qed.

(** [updateUsageStats(responseTime, success, usage = {})]: the two leading
    updates are in place before [usage.total_tokens] can throw. *)
Definition updateUsageStats (responseTime : Q) (success : bool)
  (usage : Js.value) : M state unit :=
  fun st =>
    let usage := match usage with Js.VUndefined => Js.VObj [] | _ => usage end in
    let u := usageStats st in
    let u1 :=
      mkStats (totalRequests u + 1) (totalTokens u) (errorCount u)
        (totalResponseTime u + responseTime) (estimatedCost u) in
    if success then
      match Js.get usage "total_tokens" with
      | inr e => (inr e, mkState (world st) u1 (trace st))
      | inl total_tokens =>
          let tokens := operand (Js.or total_tokens (Js.VNum 0)) in
          (inl tt,
           mkState (world st)
             (mkStats (totalRequests u1) (add (totalTokens u1) tokens)
                (errorCount u1) (totalResponseTime u1)
                (add (estimatedCost u1) (times tokens COST_PER_TOKEN)))
             (trace st))
      end
    else
      (inl tt,
       mkState (world st)
         (mkStats (totalRequests u1) (totalTokens u1) (errorCount u1 + 1)
            (totalResponseTime u1) (estimatedCost u1))
         (trace st)).

(** [await response.json()]. *)
Definition await_json (response : Response) : M state Js.value :=
  match json response with
  | Some data => ret data
  | None => throw (Js.Error (Some "Unexpected token in JSON"))
  end.

(** [generateRoast(base64Image, options = {})], for an image that is a string,
    [null] or [undefined] and an options object.  (A truthy image of another
    type makes [validateInput] throw, and [options] [null] makes
    [buildRequestBody] throw, both before the [try].) *)
Definition generateRoast (base64Image : option string) (options : Options)
  : M state RoastResult :=
  (startTime <- now ;;
   match validateInput base64Image with
   | InvalidInput e => ret (mkResult false None None (Some e))
   | ValidInput =>
       let requestBody := buildRequestBody base64Image options in
       try_catch
         (response <- makeRequestWithRetry requestBody 0 ;;
          endTime <- now ;;
          let processingTime := endTime - startTime in
          if ok response then
            data <- await_json response ;;
            result <- lift (processSuccessResponse data processingTime) ;;
            usage <- lift (Js.get data "usage") ;;
            updateUsageStats processingTime true usage ;;;
            ret result
          else
            let errorData :=
              match json response with Some d => d | None => Js.VObj [] end in
            errorResult <-
              lift (processErrorResponse response errorData processingTime) ;;
            updateUsageStats processingTime false Js.VUndefined ;;;
            ret errorResult)
         (fun _ =>
            endTime <- now ;;
            let processingTime := endTime - startTime in
            updateUsageStats processingTime false Js.VUndefined ;;;
            if gt processingTime 10000 then
              ret (failure processingTime
                     (mkError timeout_error "Request timed out after 10 seconds" None))
            else
              ret (failure processingTime
                     (mkError network_error "Network request failed" None)))
   end)%js.

(** The time [generateRoast] measures between its two clock readings. *)
Definition elapsed (st st1 : state) : Q :=
  performance_now env (world st1) - performance_now env (world st).

(** What the [catch] block of [generateRoast] returns and leaves, entered in
    state [st1] by a call that started in [st]. *)
Definition caught (st st1 : state) : (RoastResult + Js.error) * state :=
  let t := elapsed st st1 in
  (inl (failure t
          (if gt t 10000
           then mkError timeout_error "Request timed out after 10 seconds" None
           else mkError network_error "Network request failed" None)),
   mkState (world st1) (charged (usageStats st1) t) (trace st1)).

(** One call of [generateRoast] on a valid image that takes the client from
    [st] to [st'] and ends as [o] says. *)
Definition call (o : outcome) (st st' : state) : Prop :=
  exists img opts r,
    validateInput img = ValidInput /\
    generateRoast img opts st = (inl r, st') /\
    match o with
    | Succeeded tokens =>
        success r = true /\
        exists response st1 data,
          makeRequestWithRetry (buildRequestBody img opts) 0 st = (inl response, st1) /\
          json response = Some data /\
          reported_tokens data = Num tokens
    | Failed =>
        success r = false /\
        exists last st1,
          makeRequestWithRetry (buildRequestBody img opts) 0 st = (last, st1) /\
          match last with
          | inl response => ok response = false
          | inr _ => True
          end
    end.

(** A sequence of such calls on one client, oldest first. *)
Inductive history : list outcome -> state -> state -> Prop :=
| history_nil (st : state) : history [] st st
| history_snoc (h : list outcome) (o : outcome) (st st1 st2 : state) :
    history h st st1 -> call o st1 st2 -> history (h ++ [o])%list st st2.

End Client.

End OpenAIClient.

(** ** Concrete environments *)

Module Scenario.

Import OpenAIClient.

(** A world with a clock and a record of the URLs fetched so far. *)
Record world : Type := mkWorld {
  clock : Q;
  fetched : list string
}.

(** A scripted network: the [k]-th [fetch] (from 0) lasts some milliseconds and
    ends in a response or a thrown error. *)
Definition script : Type := nat -> Q * (Response + Js.error).

Definition scripted_fetch (net : script) (url : string)
  (init : Init RequestBody) : M world Response :=
  fun w =>
    let (duration, outcome) := net (List.length (fetched w)) in
    (outcome, mkWorld (clock w + duration) (fetched w ++ [url])).

(** A browser tab on [localhost] (no [jest] global) over a scripted network;
    URL escaping is immaterial here and left as the identity. *)
Definition browser (net : script) : Env RequestBody :=
  mkEnv RequestBody world clock (fun w => Qfloor (clock w))
    (fun ms w => mkWorld (clock w + ms) (fetched w))
    (scripted_fetch net) (fun url => url) false "localhost".

Definition start : world := mkWorld 0 [].

(** The module-level singleton [new CorsProxy()] and what constructing it
    leaves of the world. *)
Definition corsProxy (net : script) : CorsProxy.proxy * world :=
  CorsProxy.new (browser net) (CorsProxy.mkConfig None None None) start.

(** A fresh client over the shipped transport. *)
Definition shipped (net : script) : state (browser net) :=
  mkState (browser net) (snd (corsProxy net)) new_stats [].

(** [openaiClient.generateRoast(image, options)] as shipped: the transport is
    the singleton's [makeRequest]. *)
Definition roast (net : script) (image : option string) (options : Options)
  : (RoastResult + Js.error) * state (browser net) :=
  generateRoast (browser net)
    (CorsProxy.makeRequest (browser net) (fst (corsProxy net)))
    (Some "sk-test") image options (shipped net).

(** The same call with the transport replaced by a test double that answers
    straight from the script. *)
Definition roast_with_double (net : script) (image : option string)
  (options : Options) (st : state (browser net))
  : (RoastResult + Js.error) * state (browser net) :=
  generateRoast (browser net) (scripted_fetch net) (Some "sk-test")
    image options st.

Definition fresh (net : script) : state (browser net) :=
  mkState (browser net) start new_stats [].

Definition image : option string := Some "data:image/jpeg;base64,test".

(** An error body [{ error: { code } }]. *)
Definition error_body (code : string) : Js.value :=
  Js.VObj [ ("error", Js.VObj [ ("code", Js.VStr code) ]) ].

(** A completion body [{ choices: [{ message: { content } }], usage: { total_tokens } }]. *)
Definition completion (content : Js.value) (total_tokens : Q) : Js.value :=
  Js.VObj
    [ ("choices", Js.VArr [ Js.VObj [ ("message", Js.VObj [ ("content", content) ]) ] ]);
      ("usage", Js.VObj [ ("total_tokens", Js.VNum total_tokens) ]) ].

(** Every HTTP call is answered [401] after 50 ms. *)
Definition always_401 : script :=
  fun _ => (50, inl (mkResponse false 401 (Some (error_body "invalid_api_key")))).

(** Every HTTP call fails at the network level after 4 s. *)
Definition always_down_slowly : script :=
  fun _ => (4000, inr (Js.Error (Some "Network error"))).

(** Every HTTP call fails at the network level after 10 ms. *)
Definition always_down : script :=
  fun _ => (10, inr (Js.Error (Some "Network error"))).

(** Every HTTP call is answered with a completion of 50 tokens after 800 ms. *)
Definition always_nice : script :=
  fun _ => (800, inl (mkResponse true 200 (Some (completion (Js.VStr "Nice hat.") 50)))).

(** Every HTTP call is answered [429] after 50 ms. *)
Definition always_429 : script :=
  fun _ => (50, inl (mkResponse false 429 (Some (error_body "rate_limit_exceeded")))).

(** Every HTTP call is answered [200] with a body that has no [choices]. *)
Definition always_malformed : script :=
  fun _ => (50, inl (mkResponse true 200 (Some (Js.VObj [ ("invalid", Js.VStr "response") ])))).

(** The first HTTP call is answered with a completion of 50 tokens, every
    later one [503]. *)
Definition nice_then_503 : script :=
  fun k =>
    match k with
    | O => always_nice k
    | S _ => (50, inl (mkResponse false 503 (Some (error_body "service_unavailable"))))
    end.

End Scenario.

(** ** [src/services/fileValidator.js], continued: [sanitizeFilename] *)

Module Filename.

(** [s.split(sep)] for a one-character separator: never empty, [[""]] for the
    empty string. *)
Fixpoint split (sep : ascii) (s : string) : list string :=
  match s with
  | EmptyString => [EmptyString]
  | String c r =>
      if (c =? sep)%char then EmptyString :: split sep r
      else
        match split sep r with
        | p :: ps => String c p :: ps
        | [] => [String c EmptyString]
        end
  end.

(** Every character of [s] satisfies [p]. *)
Fixpoint all (p : ascii -> bool) (s : string) : bool :=
  match s with
  | EmptyString => true
  | String c r => p c && all p r
  end.

(** [s.replace(/./g, f)]: character by character. *)
Fixpoint mapChars (f : ascii -> ascii) (s : string) : string :=
  match s with
  | EmptyString => EmptyString
  | String c r => String (f c) (mapChars f r)
  end.

(** [filename.replace(/\.\.\/|\.\.\\/g, '')]: scanning from the left, each
    occurrence of two dots and a slash or a backslash is dropped. *)
Fixpoint removeTraversal (s : string) : string :=
  match s with
  | EmptyString => EmptyString
  | String c0 t1 =>
      match t1 with
      | String c1 (String c2 r) =>
          if (c0 =? ".")%char && (c1 =? ".")%char
             && ((c2 =? "/")%char || (c2 =? "\")%char)
          then removeTraversal r
          else String c0 (removeTraversal t1)
      | _ => String c0 (removeTraversal t1)
      end
  end.

Definition between (lo hi : nat) (c : ascii) : bool :=
  (lo <=? nat_of_ascii c)%nat && (nat_of_ascii c <=? hi)%nat.

(** The class [[a-zA-Z0-9.-]]. *)
Definition allowed (c : ascii) : bool :=
  between 97 122 c || between 65 90 c || between 48 57 c
  || (c =? ".")%char || (c =? "-")%char.

(** [sanitized.replace(/[^a-zA-Z0-9.-]/g, '_')]. *)
Definition replaceDangerous (s : string) : string :=
  mapChars (fun c => if allowed c then c else "_"%char) s.

(** [toLowerCase()] on one code unit below 256: A-Z and the accented capitals
    U+00C0-U+00DE (but the sign U+00D7) move up by 32. *)
Definition lower (c : ascii) : ascii :=
  if between 65 90 c || between 192 214 c || between 216 222 c
  then ascii_of_nat (nat_of_ascii c + 32)
  else c.

Definition toLowerCase (s : string) : string := mapChars lower s.

(** [sanitizeFilename(filename)]. *)
Definition sanitizeFilename (filename : string) : string :=
  let sanitized := replaceDangerous (removeTraversal filename) in
  let parts := split "." sanitized in
  let sanitized :=
    if (1 <? List.length parts)%nat
       && (String.length (List.last parts EmptyString) <=? 4)%nat
    then
      let extension := List.last parts EmptyString in
      let name := String.concat "_" (List.removelast parts) in
      String.substring 0 95 name ++ "." ++ extension
    else String.substring 0 100 sanitized in
  toLowerCase sanitized.

(** The characters the result is made of: [[a-z0-9._-]]. *)
Definition safe (c : ascii) : bool :=
  between 97 122 c || between 48 57 c
  || (c =? ".")%char || (c =? "-")%char || (c =? "_")%char.

(** What the cleaning leaves: the allowed class and the underscore. *)
Definition cleaned_char (c : ascii) : bool := allowed c || (c =? "_")%char.

Definition not_dot (c : ascii) : bool := negb (c =? ".")%char.

End Filename.

(** ** Request headers *)

(** [headers[k]] on a header object. *)
Fixpoint get_header (hs : list (string * string)) (k : string) : option string :=
  match hs with
  | [] => None
  | (k', v) :: rest => if k' =? k then Some v else get_header rest k
  end.

(** The four strategy names [executeStrategy] knows. *)
Definition known (s : string) : bool :=
  (s =? CorsProxy.DIRECT) || (s =? CorsProxy.CORS_PROXY_STRATEGY)
  || (s =? CorsProxy.CUSTOM_PROXY) || (s =? CorsProxy.MOCK).

(** ** [src/services/imageProcessor.js] *)

Module ImageProcessor.

(** A file-like object as [convertToBase64] inspects it: an absent property is
    [None]; [size] and [type] are [None] unless they are a number and a
    string. *)
Record File : Type := mkFile {
  name : option string;
  fileName : option string;
  size : option Z;
  type : option string
}.

Inductive error_type : Type :=
| invalid_input
| conversion_failed
| timeout
| read_error.

(** [{ type, message, timestamp? }]. *)
Record error_info : Type := mkError {
  kind : error_type;
  message : string;
  timestamp : option Z
}.

Record metadata : Type := mkMetadata {
  originalName : option string;
  originalSize : Z;
  mimeType : string
}.

(** The object [convertToBase64] resolves to; [base64Data] is [None] for
    [null]. *)
Record Conversion : Type := mkConversion {
  success : bool;
  base64Data : option string;
  processingTimeMs : option Q;
  error : option error_info;
  meta : option metadata
}.

(** [this.performanceMetrics]. *)
Record Metrics : Type := mkMetrics {
  totalProcessed : Z;
  totalTime : Q;
  successCount : Z;
  errorCount : Z
}.

(** The fields of an instance. *)
Record processor : Type := mkProcessor {
  performanceMetrics : Metrics;
  activeReaders : Z;
  temporaryFiles : Z
}.

(** The constructor, and [resetPerformanceMetrics]'s value. *)
Definition no_metrics : Metrics := mkMetrics 0 0 0 0.
Definition new : processor := mkProcessor no_metrics 0 0.

(** [updateMetrics(processingTime, success)]. *)
Definition updateMetrics (processingTime : Q) (ok : bool) (p : processor)
  : processor :=
  let m := performanceMetrics p in
  mkProcessor
    (mkMetrics (totalProcessed m + 1) (totalTime m + processingTime)
       (if ok then successCount m + 1 else successCount m)%Z
       (if ok then errorCount m else errorCount m + 1)%Z)
    (activeReaders p) (temporaryFiles p).

(** The object [getPerformanceMetrics] returns. *)
Record Performance : Type := mkPerformance {
  perf_totalProcessed : Z;
  averageProcessingTime : Q;
  successRate : Q
}.

Definition getPerformanceMetrics (p : processor) : Performance :=
  let total := totalProcessed (performanceMetrics p) in
  mkPerformance total
    (if (total >? 0)%Z
     then totalTime (performanceMetrics p) / inject_Z total else 0)
    (if (total >? 0)%Z
     then inject_Z (successCount (performanceMetrics p)) / inject_Z total else 0).

Definition resetPerformanceMetrics (p : processor) : processor :=
  mkProcessor no_metrics (activeReaders p) (temporaryFiles p).

(** [estimateProcessingTime(fileSize)]:
    [Math.min(Math.max(fileSize / 1024, 100), 8000)]. *)
Definition estimateProcessingTime (fileSize : Q) : Q :=
  Qmin (Qmax (fileSize / 1024) 100) 8000.

(** What the [FileReader] reports, with the clock readings taken in that
    callback: [performance.now()] and, for an error, [Date.now()]. *)
Inductive reader_event : Type :=
| Loaded (result : string) (at_ms : Q)
| Errored (at_ms : Q) (date : Z).

(** The order in which the event loop runs the callbacks of one conversion:
    the reader's callback first (it clears the timer), or the timer first,
    after which the reader, which nothing aborts, may still report. *)
Inductive schedule : Type :=
| ReaderFirst (e : reader_event)
| TimerFirst (late : option reader_event).

(** The side effects of [reader.onload] / [reader.onerror]. *)
Definition settle_reader (startTime : Q) (e : reader_event) (p : processor)
  : processor :=
  let p1 :=
    mkProcessor (performanceMetrics p) (activeReaders p - 1) (temporaryFiles p) in
  match e with
  | Loaded _ at_ms => updateMetrics (at_ms - startTime) true p1
  | Errored at_ms _ => updateMetrics (at_ms - startTime) false p1
  end.

(** [!!x] for a property that is a string or absent. *)
Definition present (x : option string) : bool :=
  match x with
  | Some s => negb (s =? "")
  | None => false
  end.

(** [convertToBase64(file, options)] once every callback has run: the value
    the promise resolved to (later [resolve] calls are ignored) and the
    instance left behind.  [startTime] and [today] are [performance.now()] and
    [Date.now()] at the call.  The delay [options.timeout || 10000] of the
    timer only bears on the order the event loop produces, which is an input
    here. *)
Definition convertToBase64 (file : option File) (startTime : Q) (today : Z)
  (order : schedule) (p : processor) : Conversion * processor :=
  match file with
  | None =>
      (mkConversion false None None
         (Some (mkError invalid_input "No file provided" (Some today))) None,
       p)
  | Some f =>
      match present (name f) || present (fileName f), size f, type f with
      | true, Some sz, Some ty =>
          let started :=
            mkProcessor (performanceMetrics p) (activeReaders p + 1)
              (temporaryFiles p) in
          match order with
          | ReaderFirst (Loaded result at_ms) =>
              (mkConversion true (Some result) (Some (at_ms - startTime)) None
                 (Some (mkMetadata (name f) sz ty)),
               settle_reader startTime (Loaded result at_ms) started)
          | ReaderFirst (Errored at_ms date) =>
              (mkConversion false None None
                 (Some (mkError read_error "Failed to read file" (Some date))) None,
               settle_reader startTime (Errored at_ms date) started)
          | TimerFirst late =>
              let timed_out :=
                mkProcessor (performanceMetrics started)
                  (activeReaders started - 1) (temporaryFiles started) in
              (mkConversion false None None
                 (Some (mkError timeout "File processing timeout" None)) None,
               match late with
               | Some e => settle_reader startTime e timed_out
               | None => timed_out
               end)
          end
      | _, _, _ =>
          (mkConversion false None None
             (Some (mkError conversion_failed
                      "Invalid file object - missing required properties (name, size, type)"
                      (Some today))) None,
           p)
      end
  end.

End ImageProcessor.

(** ** More concrete environments *)

Module Cases.

Import OpenAIClient.

(** Every call of the transport throws an error that names the status. *)
Definition always_throws_401 : Scenario.script :=
  fun _ => (50, inr (Js.Error (Some "Request failed with status 401"))).

(** The first two calls fail at the network level, the third is answered
    with a completion of 50 tokens. *)
Definition down_twice_then_nice : Scenario.script :=
  fun k =>
    match k with
    | 0%nat | 1%nat => Scenario.always_down k
    | _ => Scenario.always_nice k
    end.

(** A completion [{ choices: [{ message: { content } }], usage: null }]. *)
Definition completion_null_usage (content : string) : Js.value :=
  Js.VObj
    [ ("choices",
        Js.VArr [ Js.VObj [ ("message", Js.VObj [ ("content", Js.VStr content) ]) ] ]);
      ("usage", Js.VNull) ].

Definition always_null_usage : Scenario.script :=
  fun _ => (800, inl (mkResponse true 200 (Some (completion_null_usage "Nice hat.")))).

(** Every call is answered [200] with a body that is not JSON. *)
Definition always_unparseable : Scenario.script :=
  fun _ => (800, inl (mkResponse true 200 None)).

(** A test runner: the [jest] global is defined. *)
Definition under_jest (net : Scenario.script) : Env RequestBody :=
  mkEnv RequestBody Scenario.world Scenario.clock
    (fun w => Qfloor (Scenario.clock w))
    (fun ms w => Scenario.mkWorld (Scenario.clock w + ms) (Scenario.fetched w))
    (Scenario.scripted_fetch net) (fun url => url) true "localhost".

End Cases.

(** * Properties *)

(** ** Validation gate *)

Section FileValidatorFacts.

Import FileValidator.

Variable sanitizeFilename : string -> string.

Lemma supported_nonempty (f : File) :
  supported f = true -> exists t, type f = Some t /\ t <> "".
Proof.
  unfold supported. destruct (type f) as [t|]; [|discriminate].
  intros H. exists t. split; [reflexivity|]. intros ->. discriminate.
Qed.

(** [supported] is membership in the four MIME types of the configuration. *)
Lemma supported_types (f : File) (ty : string) :
  type f = Some ty ->
  (supported f = true <->
   In ty [ "image/jpeg"; "image/png"; "image/gif"; "image/webp" ]).
Proof.
  intros Ht. unfold supported. rewrite Ht.
  change Config.SUPPORTED_FORMATS
    with [ "image/jpeg"; "image/png"; "image/gif"; "image/webp" ].
  rewrite existsb_exists. split.
  - intros (t & I & E). apply String.eqb_eq in E. subst t. exact I.
  - intros I. exists ty. split; [exact I | apply String.eqb_refl].
Qed.

(** [validateFileSize] on its own: empty, too large, or accepted, whatever the
    MIME type. *)
Lemma validateFileSize_verdict (f : File) (sz : Z) :
  size f = Number sz ->
  (sz = 0 -> kind (validateFileSize (Some f)) = Some file_invalid)%Z /\
  (sz > Config.MAX_FILE_SIZE_BYTES -> kind (validateFileSize (Some f)) = Some file_size)%Z /\
  (sz <> 0 -> sz <= Config.MAX_FILE_SIZE_BYTES -> validateFileSize (Some f) = Valid None)%Z.
Proof.
  intros Hs. unfold validateFileSize, exceeds. rewrite Hs.
  repeat split; intros.
  - subst sz. reflexivity.
  - destruct sz; [discriminate| |]; destruct (Z.gtb_spec (Z.pos p) Config.MAX_FILE_SIZE_BYTES);
      try reflexivity; try lia.
    unfold Config.MAX_FILE_SIZE_BYTES in *. lia.
  - destruct sz as [|q|q]; [congruence| |];
      match goal with |- context [(?a >? ?b)%Z] => destruct (Z.gtb_spec a b) end;
      try reflexivity; lia.
Qed.

(** A size that is not a number is never "empty"; it is too large when the
    number it converts to is, as for the string ['6000000']. *)
Example validateFileSize_converts :
  let f sz := mkFile (Some "photo.jpg") sz (Some "image/jpeg") (Loaded []) in
  kind (validateFileSize (Some (f (NotNumber (Some 6000000))))) = Some file_size /\
  validateFileSize (Some (f (NotNumber (Some 0)))) = Valid None /\
  validateFileSize (Some (f (NotNumber None))) = Valid None.
Proof. repeat split. Qed.

(** [validateFileFormat] on its own: a missing, empty or unsupported MIME type
    is a format error, whatever the size. *)
Lemma validateFileFormat_verdict (f : File) :
  (supported f = false -> kind (validateFileFormat (Some f)) = Some file_format) /\
  (supported f = true -> validateFileFormat (Some f) = Valid None).
Proof.
  unfold supported, validateFileFormat.
  destruct (type f) as [[|c t]|]; cbv beta iota.
  - split; intros H; [reflexivity | discriminate H].
  - destruct (existsb _ _); split; intros H;
      first [reflexivity | discriminate H].
  - split; intros H; [reflexivity | discriminate H].
Qed.


(** Past the shape guard, [validateFile] is the chain of the three checks; a
    header read that throws makes the whole call throw. *)
Lemma validateFile_chain (f : File) (nm : string) (sz : Z) (ty : string) :
  name f = Some nm -> size f = Number sz -> type f = Some ty ->
  validateFile sanitizeFilename (Some f) =
  match validateFileSize (Some f) with
  | Invalid k m => inl (Invalid k m)
  | Valid _ =>
      match validateFileFormat (Some f) with
      | Invalid k m => inl (Invalid k m)
      | Valid _ =>
          match header f with
          | Loaded _ => inl (Valid (Some (sanitizeFilename nm, mkInfo sz ty nm)))
          | ReadFailed => inl (Invalid file_invalid "Unable to read file header")
          | Threw e => inr e
          end
      end
  end.
Proof.
  intros Hn Hs Ht. unfold validateFile. rewrite Hn, Hs, Ht.
  destruct (validateFileSize (Some f)); [|reflexivity].
  destruct (validateFileFormat (Some f)); [|reflexivity].
  unfold validateFileHeaders. destruct (header f); reflexivity.
Qed.

(** An object that passes the three checks but whose header read throws (it
    has no [slice] method, say) makes [validateFile] throw that error. *)
Lemma validateFile_throws (f : File) (nm : string) (sz : Z) (ty : string)
  (e : Js.error) :
  name f = Some nm -> size f = Number sz -> type f = Some ty ->
  (sz <> 0 /\ sz <= Config.MAX_FILE_SIZE_BYTES)%Z -> supported f = true ->
  header f = Threw e ->
  validateFile sanitizeFilename (Some f) = inr e.
Proof.
  intros Hn Hs Ht [N L] B Hh.
  rewrite (validateFile_chain f nm sz ty Hn Hs Ht).
  destruct (validateFileSize_verdict f sz Hs) as (_ & _ & S2).
  destruct (validateFileFormat_verdict f) as (_ & F1).
  rewrite (S2 N L), (F1 B), Hh. reflexivity.
Qed.

End FileValidatorFacts.

(** C7, as stated, fails: a zero-byte file with an unsupported MIME type is
    reported as [file_invalid], not as [file_format], because the size check
    runs first. *)
Lemma validateFile_empty_unsupported :
  let f :=
    FileValidator.mkFile (Some "notes.txt") (FileValidator.Number 0)
      (Some "text/plain") (FileValidator.Loaded []) in
  FileValidator.supported f = false /\
  FileValidator.verdict_kind (FileValidator.validateFile (fun n => n) (Some f))
    = Some FileValidator.file_invalid /\
  FileValidator.verdict_kind (FileValidator.validateFile (fun n => n) (Some f))
    <> Some FileValidator.file_format.
Proof.
  repeat split; try reflexivity. discriminate.
Qed.

(** C7, amended: for a file object with an own [name] holding a string, a
    numeric size and a string MIME type the checks apply in order.  A
    zero-byte file is [file_invalid]; a file larger than 5 MiB is [file_size];
    a file of size 0 < size <= 5 MiB (inclusive) whose MIME type is empty or
    not one of [image/jpeg], [image/png], [image/gif] and [image/webp] is
    [file_format]; such a file with one of the four types is accepted, with
    its sanitized name and its size, type and name, when the read of its first
    four bytes completes, and is [file_invalid] when that read ends in an
    error. *)
Theorem validateFile_verdict (sanitizeFilename : string -> string)
  (nm : string) (sz : Z) (ty : string) (hd : FileValidator.read_outcome) :
  let f := FileValidator.mkFile (Some nm) (FileValidator.Number sz) (Some ty) hd in
  let verdict := FileValidator.validateFile sanitizeFilename (Some f) in
  let supported :=
    In ty [ "image/jpeg"; "image/png"; "image/gif"; "image/webp" ] in
  (sz = 0 ->
   FileValidator.verdict_kind verdict = Some FileValidator.file_invalid)%Z /\
  (sz > 5 * 1024 * 1024 ->
   FileValidator.verdict_kind verdict = Some FileValidator.file_size)%Z /\
  (0 < sz <= 5 * 1024 * 1024 -> ~ supported ->
   FileValidator.verdict_kind verdict = Some FileValidator.file_format)%Z /\
  (0 < sz <= 5 * 1024 * 1024 -> supported ->
   forall bytes, hd = FileValidator.Loaded bytes ->
   verdict
   = inl (FileValidator.Valid
            (Some (sanitizeFilename nm, FileValidator.mkInfo sz ty nm))))%Z /\
  (0 < sz <= 5 * 1024 * 1024 -> supported ->
   hd = FileValidator.ReadFailed ->
   FileValidator.verdict_kind verdict = Some FileValidator.file_invalid)%Z.
Proof.
  intros f verdict supported.
  pose proof (validateFileSize_verdict f sz eq_refl) as (S0 & S1 & S2).
  pose proof (validateFileFormat_verdict f) as (F0 & F1).
  pose proof (supported_types f ty eq_refl) as B.
  change (5 * 1024 * 1024)%Z with Config.MAX_FILE_SIZE_BYTES.
  subst verdict.
  rewrite (validateFile_chain sanitizeFilename f nm sz ty eq_refl eq_refl eq_refl).
  repeat split.
  - intros E. specialize (S0 E).
    destruct (FileValidator.validateFileSize (Some f)); [discriminate | exact S0].
  - intros E. specialize (S1 E).
    destruct (FileValidator.validateFileSize (Some f)); [discriminate | exact S1].
  - intros [L U] N. rewrite S2 by lia.
    destruct (FileValidator.supported f) eqn:K;
      [exfalso; apply N, B; reflexivity|].
    specialize (F0 eq_refl).
    destruct (FileValidator.validateFileFormat (Some f)); [discriminate | exact F0].
  - intros [L U] I bytes E. rewrite S2 by lia. rewrite (F1 (proj2 B I)).
    subst f. cbn [FileValidator.header]. rewrite E. reflexivity.
  - intros [L U] I E. rewrite S2 by lia. rewrite (F1 (proj2 B I)).
    subst f. cbn [FileValidator.header]. rewrite E. reflexivity.
Qed.

(** The verdicts at concrete files: the happy path of the spec
    ([photo.jpg], 1.2 MB, [image/jpeg]), the inclusive bound, one byte more,
    a PDF, and a read that fails. *)
Example validateFile_runs :
  let file nm sz ty hd :=
    FileValidator.validateFile Filename.sanitizeFilename
      (Some (FileValidator.mkFile (Some nm) (FileValidator.Number sz) (Some ty) hd)) in
  let jpeg_header := FileValidator.Loaded [ 255; 216; 255; 224 ]%Z in
  file "photo.jpg" 1200000%Z "image/jpeg" jpeg_header
  = inl (FileValidator.Valid
           (Some ("photo.jpg",
                  FileValidator.mkInfo 1200000 "image/jpeg" "photo.jpg"))) /\
  file "Big One.PNG" 5242880%Z "image/png" jpeg_header
  = inl (FileValidator.Valid
           (Some ("big_one.png",
                  FileValidator.mkInfo 5242880 "image/png" "Big One.PNG"))) /\
  FileValidator.verdict_kind (file "big.jpg" 5242881%Z "image/jpeg" jpeg_header)
  = Some FileValidator.file_size /\
  FileValidator.verdict_kind (file "document.pdf" 1024%Z "application/pdf" jpeg_header)
  = Some FileValidator.file_format /\
  FileValidator.verdict_kind (file "empty.gif" 0%Z "image/gif" jpeg_header)
  = Some FileValidator.file_invalid /\
  FileValidator.verdict_kind
    (file "photo.webp" 1024%Z "image/webp" FileValidator.ReadFailed)
  = Some FileValidator.file_invalid.
Proof. repeat split. Qed.

(** ** Persona table *)

Section PersonaFacts.

Import OpenAIClient.

(** Every entry of the table is a non-empty string. *)
Lemma personas_entries (k : string) (v : Js.value) :
  Js.own personas k = Some v ->
  Js.truthy v = true /\ exists text, v = Js.VStr text.
Proof.
  unfold personas. cbn [Js.own].
  repeat match goal with
         | |- (if ?b then _ else _) = _ -> _ =>
             destruct b;
             [ intros H; injection H as <-; split; [reflexivity | eexists; reflexivity] | ]
         end.
  discriminate.
Qed.

(** A key of the table maps to its own prompt, the same at every call. *)
Lemma getPersonaPrompt_known (k : string) (v : Js.value) :
  Js.own personas k = Some v -> getPersonaPrompt (Some k) = v.
Proof.
  intros H. destruct (personas_entries k v H) as [T _].
  unfold getPersonaPrompt, Js.or, Js.lookup. rewrite H, T. reflexivity.
Qed.

(** Any other key that [Object.prototype] does not define maps to [undefined]. *)
Lemma getPersonaPrompt_unknown (k : string) :
  Js.own personas k = None ->
  existsb (String.eqb k) Js.object_prototype = false ->
  k <> "__proto__" ->
  getPersonaPrompt (Some k) = Js.VUndefined.
Proof.
  intros H P N. unfold getPersonaPrompt, Js.or, Js.lookup at 1. rewrite H, P.
  apply String.eqb_neq in N. rewrite N. reflexivity.
Qed.

End PersonaFacts.

(** C3: the lookup is a function, so equal keys give equal results; but the
    table has no entry for the default persona ['kapil-sharma'], so an omitted
    or unknown key yields [undefined] rather than a prompt string, and a key
    that names a member of [Object.prototype] yields that member. *)
Theorem getPersonaPrompt_default_missing :
  Js.own OpenAIClient.personas "kapil-sharma" = None /\
  OpenAIClient.getPersonaPrompt None = Js.VUndefined /\
  OpenAIClient.getPersonaPrompt (Some "kapil-sharma") = Js.VUndefined /\
  OpenAIClient.getPersonaPrompt (Some "no-such-persona") = Js.VUndefined /\
  OpenAIClient.getPersonaPrompt (Some "toString") = Js.VFun "toString".
Proof. repeat split; reflexivity. Qed.

(** ** Request construction *)

Section RequestFacts.

Import OpenAIClient.

(** Truthy option values reach the request unchanged. *)
Lemma buildRequestBody_truthy (img : option string) (o : Options) :
  (Js.truthy (maxTokens o) = true ->
   max_tokens (buildRequestBody img o) = maxTokens o) /\
  (Js.truthy (opt_temperature o) = true ->
   temperature (buildRequestBody img o) = opt_temperature o) /\
  (Js.truthy (customPrompt o) = true ->
   messages (buildRequestBody img o)
   = [ mkMessage "user" [ Text (customPrompt o); ImageUrl img ] ]).
Proof.
  unfold buildRequestBody, Js.or; cbn.
  repeat split; intros ->; reflexivity.
Qed.

(** Omitted option values are replaced by the defaults 300 and 0.9, and an
    omitted prompt by the persona lookup. *)
Lemma buildRequestBody_defaults (img : option string) (p : option string) :
  buildRequestBody img (mkOptions Js.VUndefined p Js.VUndefined Js.VUndefined)
  = mkRequestBody "gpt-4o"
      [ mkMessage "user" [ Text (getPersonaPrompt p); ImageUrl img ] ]
      (Js.VNum 300) (Js.VNum (9 # 10)).
Proof. reflexivity. Qed.

End RequestFacts.

(** C10: a caller that supplies [temperature: 0] or [maxTokens: 0] gets the
    defaults 0.9 and 300 instead of the supplied values, and a supplied empty
    [customPrompt] does not override the persona lookup: [||] treats every falsy
    value as omitted. *)
Theorem buildRequestBody_zero_is_dropped :
  let supplied :=
    OpenAIClient.mkOptions (Js.VStr "") (Some "rajinikanth") (Js.VNum 0) (Js.VNum 0) in
  let request := OpenAIClient.buildRequestBody Scenario.image supplied in
  OpenAIClient.temperature request = Js.VNum (9 # 10) /\
  OpenAIClient.max_tokens request = Js.VNum 300 /\
  OpenAIClient.messages request
  = [ OpenAIClient.mkMessage "user"
        [ OpenAIClient.Text (OpenAIClient.getPersonaPrompt (Some "rajinikanth"));
          OpenAIClient.ImageUrl Scenario.image ] ].
Proof. repeat split; reflexivity. Qed.

(** ** Strategy selection *)

(** C6: outside a test context [detectBestStrategy] answers [custom] whatever
    the liveness probe finds: it tests the promise that the [async] probe
    returns, not the boolean the promise settles to. *)
Theorem detectBestStrategy_ignores_probe {Body : Type} (env : Env Body)
  (url : option string) (w : World env) :
  jest_defined env = false ->
  fst (CorsProxy.detectBestStrategy env url w) = CorsProxy.CUSTOM_PROXY.
Proof.
  intros J. unfold CorsProxy.detectBestStrategy. rewrite J.
  unfold CorsProxy.isCustomProxyAvailable.
  destruct (fetch env _ _ w) as [[response | e] w']; reflexivity.
Qed.

(** With the backend proxy unreachable the probe settles to [false], and the
    dispatcher still selects the backend proxy. *)
Lemma detectBestStrategy_unreachable_backend :
  fst (CorsProxy.isCustomProxyAvailable (Scenario.browser Scenario.always_down)
         None Scenario.start)
  = Js.VPromise (Js.VBool false) /\
  fst (CorsProxy.detectBestStrategy (Scenario.browser Scenario.always_down)
         None Scenario.start)
  = "custom".
Proof.
  split; [reflexivity|].
  apply (detectBestStrategy_ignores_probe (Scenario.browser Scenario.always_down)).
  reflexivity.
Defined.

(** ** Sanitisation of the completion text *)

Section SanitizeFacts.

Import OpenAIClient.

Lemma replaceTags_unfold (c : ascii) (r : string) :
  replaceTags (String c r) =
  match match_tag (String c r) with
  | Some rest => replaceTags rest
  | None => String c (replaceTags r)
  end.
Proof.
  simp replaceTags. unfold inspect.
  enough (G : forall m (e : match_tag (String c r) = m),
             replaceTags_unfold_clause_2 c r (exist _ m e) =
             match m with
             | Some rest => replaceTags rest
             | None => String c (replaceTags r)
             end) by apply G.
  intros [rest|] e; simp replaceTags; reflexivity.
Qed.

Lemma match_tag_none_plain (s : string) :
  after_gt s = None -> match_tag s = None.
Proof.
  destruct s as [|c r]; [reflexivity|]. cbn.
  destruct (c =? ">")%char; [discriminate|].
  intros H. rewrite H. destruct (c =? "<")%char; reflexivity.
Qed.

(** Without a [>] nothing can match, and the text is returned as it is. *)
Lemma replaceTags_without_gt (s : string) :
  after_gt s = None -> replaceTags s = s.
Proof.
  induction s as [|c r IH]; intros H.
  - simp replaceTags. reflexivity.
  - rewrite replaceTags_unfold, (match_tag_none_plain _ H).
    cbn in H. destruct (c =? ">")%char; [discriminate|].
    rewrite (IH H). reflexivity.
Qed.

(** After the replacement the pattern matches nowhere: no [<] of the result is
    followed by a [>]. *)
Lemma replaceTags_no_tag (s : string) : has_tag (replaceTags s) = false.
Proof.
  remember (String.length s) as n eqn:Hn.
  revert s Hn. induction n as [n IH] using lt_wf_ind. intros s Hn.
  destruct s as [|c r].
  - simp replaceTags. reflexivity.
  - rewrite replaceTags_unfold.
    destruct (match_tag (String c r)) as [rest|] eqn:E.
    + apply (IH (String.length rest)); [|reflexivity].
      subst n. clear IH. cbn in E.
      destruct (c =? "<")%char; [|discriminate].
      revert rest E. induction r as [|d r IHr]; cbn; intros rest E; [discriminate|].
      destruct (d =? ">")%char.
      * injection E as <-. lia.
      * specialize (IHr _ E). cbn in IHr. lia.
    + assert (T : match_tag (String c (replaceTags r)) = None).
      { cbn in E |- *. destruct (c =? "<")%char; [|reflexivity].
        rewrite (replaceTags_without_gt r E). exact E. }
      cbn [has_tag]. rewrite T.
      apply (IH (String.length r)); [subst n; cbn; lia | reflexivity].
Qed.

(** Text that contains no [<] is kept unchanged. *)
Lemma replaceTags_plain (s : string) :
  (forall c, In c (list_ascii_of_string s) -> c <> "<"%char) ->
  replaceTags s = s.
Proof.
  induction s as [|c r IH]; intros H.
  - simp replaceTags. reflexivity.
  - rewrite replaceTags_unfold. cbn [match_tag].
    destruct (Ascii.eqb_spec c "<") as [->|N].
    + exfalso. apply (H "<"%char); [left; reflexivity | reflexivity].
    + rewrite IH; [reflexivity|]. intros d Hd. apply H. right. exact Hd.
Qed.

(** The test of the repository: the markup goes, the words around it stay. *)
Example replaceTags_script :
  replaceTags "Roast with <script>alert(1)</script> content"
  = "Roast with alert(1) content".
Proof. reflexivity. Qed.

End SanitizeFacts.

(** C9: a completion whose text is the empty string is reported as
    [invalid_response], not [empty_response] (the repository's own test expects
    [empty_response]); and a completion made only of markup is a Success whose
    text is empty. *)
Theorem processSuccessResponse_empty_text :
  OpenAIClient.processSuccessResponse (Scenario.completion (Js.VStr "") 5) 100
  = inl (OpenAIClient.mkResult false None None
           (Some (OpenAIClient.mkError OpenAIClient.invalid_response
                    "Invalid API response format" None))) /\
  OpenAIClient.processSuccessResponse (Scenario.completion (Js.VStr "  ") 5) 100
  = inl (OpenAIClient.mkResult false None None
           (Some (OpenAIClient.mkError OpenAIClient.empty_response
                    "Empty roast content received" None))) /\
  OpenAIClient.processSuccessResponse (Scenario.completion (Js.VStr "<b></b>") 5) 100
  = inl (OpenAIClient.mkResult true (Some "") (Some 100) None).
Proof. repeat split; reflexivity. Qed.

(** ** The client: dispatch, classification, accounting *)

Section ClientFacts.

Import OpenAIClient.
Local Open Scope list_scope.

Variable env : Env RequestBody.
Variable makeRequest : string -> Init RequestBody -> M (World env) Response.
Variable apiKey : option string.

Local Abbreviation state := (OpenAIClient.state env).
Local Abbreviation request := (OpenAIClient.request env makeRequest apiKey).
Local Abbreviation retry := (makeRequestWithRetry env makeRequest apiKey).
Local Abbreviation generate := (generateRoast env makeRequest apiKey).
Local Abbreviation elapsed := (OpenAIClient.elapsed env).
Local Abbreviation caught := (OpenAIClient.caught env).
Local Abbreviation call := (OpenAIClient.call env makeRequest apiKey).
Local Abbreviation history := (OpenAIClient.history env makeRequest apiKey).

(** One round of [makeRequestWithRetry]. *)
Lemma makeRequestWithRetry_unfold (body : RequestBody) (n : nat) (st : state) :
  retry body n st =
  match request body st with
  | (inl response, st1) => (inl response, st1)
  | (inr e, st1) =>
      if (n <? maxRetries)%nat && shouldRetry e
      then retry body (S n) (snd (delay env (backoff n) st1))
      else (inr e, st1)
  end.
Proof.
  simp makeRequestWithRetry.
  destruct (OpenAIClient.request env makeRequest apiKey body st) as [[response | e] st1]; simp makeRequestWithRetry.
  - reflexivity.
  - destruct (lt_dec n maxRetries) as [L | L].
    + pose proof (proj2 (Nat.ltb_lt n maxRetries) L) as ->.
      simp makeRequestWithRetry.
      destruct (shouldRetry e); simp makeRequestWithRetry; reflexivity.
    + pose proof (proj2 (Nat.ltb_nlt n maxRetries) L) as ->.
      simp makeRequestWithRetry. reflexivity.
Qed.

(** The transport call touches neither the counters nor anything but the end
    of the trace. *)
Lemma request_frame (body : RequestBody) (st st1 : state) (r : Response + Js.error) :
  request body st = (r, st1) ->
  usageStats env st1 = usageStats env st /\
  trace env st1 = trace env st ++ [Sent] /\
  exists options, makeRequest "chat/completions" options (world env st) = (r, world env st1).
Proof.
  unfold OpenAIClient.request.
  destruct (makeRequest _ _ (world env st)) as [r' w] eqn:E.
  intros H. injection H as <- <-. cbn. repeat split. eexists. exact E.
Qed.

(** A response, whatever its status, ends the dispatch at once. *)
Lemma makeRequestWithRetry_response (body : RequestBody) (n : nat)
  (st st1 : state) (response : Response) :
  request body st = (inl response, st1) ->
  retry body n st = (inl response, st1).
Proof.
  intros H. rewrite makeRequestWithRetry_unfold, H. reflexivity.
Qed.

(** The dispatch never touches the counters. *)
Lemma makeRequestWithRetry_stats (body : RequestBody) (n : nat) (st : state) :
  usageStats env (snd (retry body n st)) = usageStats env st.
Proof.
  remember (maxRetries - n)%nat as fuel eqn:F.
  revert n st F. induction fuel as [|fuel IH]; intros n st F;
    rewrite makeRequestWithRetry_unfold;
    destruct (request body st) as [[response | e] st1] eqn:R;
    destruct (request_frame _ _ _ _ R) as (U & _ & _); try exact U.
  - assert (L : (n <? maxRetries)%nat = false) by (apply Nat.ltb_ge; lia).
    rewrite L. exact U.
  - destruct ((n <? maxRetries)%nat && shouldRetry e) eqn:B; [|exact U].
    apply andb_prop in B as [L _]. apply Nat.ltb_lt in L.
    rewrite (IH (S n)) by lia. exact U.
Qed.

(** When every transport call throws a retryable error the dispatch makes
    three calls, 1000 ms and 2000 ms apart, and rethrows the last error. *)
Lemma makeRequestWithRetry_exhausted (body : RequestBody) (st : state) :
  (forall endpoint options w, exists e w',
      makeRequest endpoint options w = (inr e, w') /\ shouldRetry e = true) ->
  exists e st3,
    retry body 0 st = (inr e, st3) /\
    usageStats env st3 = usageStats env st /\
    trace env st3 = trace env st ++ [Sent; Delayed 1000; Sent; Delayed 2000; Sent].
Proof.
  intros down.
  assert (fails : forall st, exists e st1,
             request body st = (inr e, st1) /\ shouldRetry e = true /\
             usageStats env st1 = usageStats env st /\
             trace env st1 = trace env st ++ [Sent]).
  { intros s. unfold OpenAIClient.request.
    match goal with |- context [makeRequest ?a ?b ?c] =>
      destruct (down a b c) as (e & w' & -> & S) end.
    do 2 eexists. repeat split. exact S. }
  destruct (fails st) as (e1 & st1 & R1 & S1 & U1 & T1).
  destruct (fails (snd (delay env (backoff 0) st1))) as (e2 & st2 & R2 & S2 & U2 & T2).
  destruct (fails (snd (delay env (backoff 1) st2))) as (e3 & st3 & R3 & S3 & U3 & T3).
  exists e3, st3.
  rewrite makeRequestWithRetry_unfold, R1, S1. cbn [Nat.ltb Nat.leb maxRetries andb].
  rewrite makeRequestWithRetry_unfold, R2, S2. cbn [Nat.ltb Nat.leb maxRetries andb].
  rewrite makeRequestWithRetry_unfold, R3. cbn [Nat.ltb Nat.leb maxRetries andb].
  repeat split.
  - rewrite U3. cbn. rewrite U2. cbn. exact U1.
  - rewrite T3. cbn. rewrite T2. cbn. rewrite T1.
    rewrite <- !app_assoc. reflexivity.
Qed.

Lemma generate_rejected (img : option string) (opts : Options) (st : state)
  (e : error_info) :
  validateInput img = InvalidInput e ->
  generate img opts st = (inl (mkResult false None None (Some e)), st).
Proof.
  intros V. unfold generateRoast, bind, now. rewrite V. reflexivity.
Qed.

Lemma generate_thrown (img : option string) (opts : Options) (st st1 : state)
  (e : Js.error) :
  validateInput img = ValidInput ->
  retry (buildRequestBody img opts) 0 st = (inr e, st1) ->
  generate img opts st = caught st st1.
Proof.
  intros V R. unfold generateRoast, bind, try_catch, now. rewrite V. cbn.
  rewrite R. unfold caught, elapsed, updateUsageStats, ret. cbn.
  destruct (gt _ 10000); reflexivity.
Qed.

Lemma generate_not_ok (img : option string) (opts : Options) (st st1 : state)
  (response : Response) :
  validateInput img = ValidInput ->
  retry (buildRequestBody img opts) 0 st = (inl response, st1) ->
  ok response = false ->
  generate img opts st =
  match processErrorResponse response
          (match json response with Some d => d | None => Js.VObj [] end)
          (elapsed st st1) with
  | inl r =>
      (inl r,
       mkState env (world env st1)
         (charged (usageStats env st1) (elapsed st st1)) (trace env st1))
  | inr _ => caught st st1
  end.
Proof.
  intros V R K. unfold generateRoast, bind, try_catch, now. rewrite V. cbn.
  rewrite R, K. unfold lift, elapsed. cbn.
  destruct (processErrorResponse _ _ _) as [r | e]; cbn.
  - reflexivity.
  - unfold caught, elapsed. cbn. destruct (gt _ 10000); reflexivity.
Qed.

Lemma generate_ok (img : option string) (opts : Options) (st st1 : state)
  (response : Response) :
  validateInput img = ValidInput ->
  retry (buildRequestBody img opts) 0 st = (inl response, st1) ->
  ok response = true ->
  generate img opts st =
  match json response with
  | None => caught st st1
  | Some data =>
      match processSuccessResponse data (elapsed st st1) with
      | inr _ => caught st st1
      | inl r =>
          match Js.get data "usage" with
          | inr _ => caught st st1
          | inl usage =>
              match updateUsageStats env (elapsed st st1) true usage st1 with
              | (inl _, st2) => (inl r, st2)
              | (inr _, st2) => caught st st2
              end
          end
      end
  end.
Proof.
  intros V R K. unfold generateRoast, bind, try_catch, now. rewrite V. cbn -[updateUsageStats processSuccessResponse Js.get gt Qminus].
  rewrite R, K. unfold await_json, lift, elapsed, throw, ret. cbn -[updateUsageStats processSuccessResponse Js.get gt Qminus].
  destruct (json response) as [data|]; cbn -[updateUsageStats processSuccessResponse Js.get gt Qminus].
  2: { unfold caught, elapsed. cbn -[updateUsageStats processSuccessResponse Js.get gt Qminus]. destruct (gt _ 10000); reflexivity. }
  destruct (processSuccessResponse data _) as [r | e]; cbn -[updateUsageStats processSuccessResponse Js.get gt Qminus].
  2: { unfold caught, elapsed. cbn -[updateUsageStats processSuccessResponse Js.get gt Qminus]. destruct (gt _ 10000); reflexivity. }
  destruct (Js.get data "usage") as [usage | e]; cbn -[updateUsageStats processSuccessResponse Js.get gt Qminus].
  2: { unfold caught, elapsed. cbn -[updateUsageStats processSuccessResponse Js.get gt Qminus]. destruct (gt _ 10000); reflexivity. }
  destruct (updateUsageStats env _ true usage st1) as [[u | e] st2]; cbn -[updateUsageStats processSuccessResponse Js.get gt Qminus].
  - reflexivity.
  - unfold caught, elapsed. cbn -[updateUsageStats processSuccessResponse Js.get gt Qminus]. destruct (gt _ 10000); reflexivity.
Qed.

(** Statuses other than 429, 401, 400 and 503 fall to the [default] case. *)
Lemma processErrorResponse_default (response : Response) (errorData : Js.value)
  (t : Q) :
  status response <> 429%Z -> status response <> 401%Z ->
  status response <> 400%Z -> status response <> 503%Z ->
  processErrorResponse response errorData t
  = inl (failure t (mkError api_error "Unknown API error occurred" None)).
Proof.
  unfold processErrorResponse.
  destruct (status response) as [|p|p]; try reflexivity.
  intros A B C D.
  do 10 (try (destruct p as [p|p|]; try reflexivity)); congruence.
Qed.

(** [v === s] holds for the string [s] itself and for nothing else. *)
Lemma is_string_spec (v : Js.value) (s : string) :
  Js.is_string v s = true <-> v = Js.VStr s.
Proof.
  destruct v; cbn; split; try discriminate.
  - intros H. apply String.eqb_eq in H. subst. reflexivity.
  - intros H. injection H as ->. apply String.eqb_refl.
Qed.

(** With a transport that hands the client a response that is not ok (a test
    double does; the shipped dispatcher never does), the transport is called
    once and the result is a Failure that carries the elapsed time.  Its kind
    follows the status: 429 is [rate_limit] with [retryAfterSeconds] 60; 401
    is [api_error]; 400 is [content_policy] when the error body carries the
    code [content_policy_violation], [api_error] when it carries another code
    or none, and [network_error] (or [timeout]) when the body parses to
    [null], since reading [errorData.error] then throws; 503 is
    [service_unavailable] with [retryAfterSeconds] 30; every other status is
    [api_error]. *)
Lemma generateRoast_classifies_error (img : option string) (opts : Options)
  (st st1 : state) (response : Response) :
  validateInput img = ValidInput ->
  request (buildRequestBody img opts) st = (inl response, st1) ->
  ok response = false ->
  let errorData := match json response with Some d => d | None => Js.VObj [] end in
  let code := Js.get_opt (Js.get_opt errorData "error") "code" in
  exists r st',
    generate img opts st = (inl r, st') /\
    success r = false /\
    processingTimeMs r = Some (elapsed st st1) /\
    trace env st' = trace env st ++ [Sent] /\
    (status response = 429%Z ->
     option_map type (error r) = Some rate_limit /\
     option_map retryAfterSeconds (error r) = Some (Some 60)) /\
    (status response = 401%Z -> option_map type (error r) = Some api_error) /\
    (status response = 400%Z -> code = Js.VStr "content_policy_violation" ->
     option_map type (error r) = Some content_policy) /\
    (status response = 400%Z ->
     errorData <> Js.VNull -> errorData <> Js.VUndefined ->
     code <> Js.VStr "content_policy_violation" ->
     option_map type (error r) = Some api_error) /\
    (status response = 400%Z ->
     errorData = Js.VNull \/ errorData = Js.VUndefined ->
     option_map type (error r) = Some network_error \/
     option_map type (error r) = Some timeout_error) /\
    (status response = 503%Z ->
     option_map type (error r) = Some service_unavailable /\
     option_map retryAfterSeconds (error r) = Some (Some 30)) /\
    (status response <> 429%Z -> status response <> 401%Z ->
     status response <> 400%Z -> status response <> 503%Z ->
     option_map type (error r) = Some api_error).
Proof.
  intros V R K errorData code.
  destruct (request_frame _ _ _ _ R) as (_ & T & _).
  rewrite (generate_not_ok img opts st st1 response V
             (makeRequestWithRetry_response _ 0 _ _ _ R) K).
  fold errorData.
  destruct (Z.eq_dec (status response) 429) as [E|N1];
    [|destruct (Z.eq_dec (status response) 401) as [E|N2];
      [|destruct (Z.eq_dec (status response) 400) as [E|N3];
        [|destruct (Z.eq_dec (status response) 503) as [E|N4]]]].
  - unfold processErrorResponse. rewrite E.
    do 2 eexists. repeat split; try exact T; intros; try reflexivity; congruence.
  - unfold processErrorResponse. rewrite E.
    do 2 eexists. repeat split; try exact T; intros; try reflexivity; congruence.
  - unfold processErrorResponse. rewrite E.
    assert (D : errorData = Js.VNull \/ errorData = Js.VUndefined \/
                (errorData <> Js.VNull /\ errorData <> Js.VUndefined /\
                 Js.get errorData "error" = inl (Js.get_opt errorData "error"))).
    { destruct errorData; try (right; right; repeat split; discriminate);
        [right; left | left]; reflexivity. }
    destruct D as [D | [D | (D1 & D2 & G)]].
    + subst code. rewrite D. cbn [Js.get]. unfold OpenAIClient.caught.
      do 2 eexists. split; [reflexivity|]. cbn.
      repeat split; try exact T; intros; try congruence; try discriminate.
      destruct (gt _ 10000); [right | left]; reflexivity.
    + subst code. rewrite D. cbn [Js.get]. unfold OpenAIClient.caught.
      do 2 eexists. split; [reflexivity|]. cbn.
      repeat split; try exact T; intros; try congruence; try discriminate.
      destruct (gt _ 10000); [right | left]; reflexivity.
    + rewrite G. fold code.
      destruct (Js.is_string code "content_policy_violation") eqn:C.
      * apply is_string_spec in C.
        do 2 eexists. repeat split; try exact T; intros; try reflexivity;
          try congruence.
        destruct H0; congruence.
      * assert (C' : code <> Js.VStr "content_policy_violation").
        { intros H. apply is_string_spec in H. congruence. }
        do 2 eexists. repeat split; try exact T; intros; try reflexivity;
          try congruence.
        destruct H0; congruence.
  - unfold processErrorResponse. rewrite E.
    do 2 eexists. repeat split; try exact T; intros; try reflexivity; congruence.
  - rewrite processErrorResponse_default by assumption.
    do 2 eexists. repeat split; try exact T; intros; try reflexivity; congruence.
Qed.

(** C1, amended: when every transport call throws a retryable error,
    [generateRoast] on a valid image calls the transport exactly three times,
    waits 1000 ms before the second call and 2000 ms before the third, counts
    one failed request, and returns a Failure whose kind is [network_error], or
    [timeout] when the measured time exceeds 10000 ms. *)
Theorem generateRoast_retry_bound (img : option string) (opts : Options)
  (st : state) :
  validateInput img = ValidInput ->
  (forall endpoint options w, exists e w',
      makeRequest endpoint options w = (inr e, w') /\ shouldRetry e = true) ->
  exists r st',
    generate img opts st = (inl r, st') /\
    trace env st' = trace env st ++ [Sent; Delayed 1000; Sent; Delayed 2000; Sent] /\
    success r = false /\
    processingTimeMs r = Some (elapsed st st') /\
    option_map type (error r)
    = Some (if gt (elapsed st st') 10000 then timeout_error else network_error) /\
    usageStats env st' = charged (usageStats env st) (elapsed st st').
Proof.
  intros V down.
  destruct (makeRequestWithRetry_exhausted (buildRequestBody img opts) st down)
    as (e & st3 & R & U & T).
  rewrite (generate_thrown img opts st st3 e V R). unfold caught.
  do 2 eexists. split; [reflexivity|]. cbn [trace usageStats world].
  unfold elapsed. cbn [world].
  repeat split; try assumption.
  - cbn. destruct (gt _ 10000); reflexivity.
  - rewrite U. reflexivity.
Qed.

Lemma failure_well_shaped (t : Q) (e : error_info) :
  ~ In (type e) untimed -> well_shaped (failure t e).
Proof.
  intros N. right. cbn. repeat split. exists e. split; [reflexivity|].
  split; [discriminate | intros H; destruct (N H)].
Qed.

Lemma caught_well_shaped (st st1 : state) :
  exists r, fst (caught st st1) = inl r /\ well_shaped r.
Proof.
  unfold caught. cbn. eexists. split; [reflexivity|].
  apply failure_well_shaped. destruct (gt _ 10000); cbn; intuition discriminate.
Qed.

Lemma validateInput_kinds (img : option string) (e : error_info) :
  validateInput img = InvalidInput e -> In (type e) untimed.
Proof.
  unfold validateInput.
  destruct img as [[|c s]|]; try (intros H; injection H as <-; cbn; tauto).
  destruct (negb _); [intros H; injection H as <-; cbn; tauto|].
  destruct (gt _ _); [intros H; injection H as <-; cbn; tauto | discriminate].
Qed.

Lemma processSuccessResponse_well_shaped (data : Js.value) (t : Q) (r : RoastResult) :
  processSuccessResponse data t = inl r -> well_shaped r.
Proof.
  unfold processSuccessResponse.
  destruct (Js.get data "choices") as [choices | e]; [|discriminate].
  destruct (negb (Js.truthy choices) || negb (Js.truthy _)).
  - intros H. injection H as <-. right. cbn. repeat split.
    eexists. split; [reflexivity|]. cbn. tauto.
  - destruct (Js.get_opt _ "content"); try discriminate.
    destruct (trim s =? "").
    + intros H. injection H as <-. right. cbn. repeat split.
      eexists. split; [reflexivity|]. cbn. tauto.
    + intros H. injection H as <-. left. cbn. repeat split; discriminate.
Qed.

Lemma processErrorResponse_well_shaped (response : Response) (d : Js.value)
  (t : Q) (r : RoastResult) :
  processErrorResponse response d t = inl r -> well_shaped r.
Proof.
  destruct (Z.eq_dec (status response) 429) as [E|N1];
    [|destruct (Z.eq_dec (status response) 401) as [E|N2];
      [|destruct (Z.eq_dec (status response) 400) as [E|N3];
        [|destruct (Z.eq_dec (status response) 503) as [E|N4]]]].
  5: rewrite processErrorResponse_default by assumption.
  all: try (unfold processErrorResponse; rewrite E).
  3: destruct (Js.get d "error"); [destruct (Js.is_string _ _)|discriminate].
  all: intros H; injection H as <-; apply failure_well_shaped; cbn;
    intuition discriminate.
Qed.

(** X20: for an image that is a string, [null] or [undefined] and an options
    object, [generateRoast] resolves whatever the transport does: what the
    transport, the reading of the body or the accounting throw inside the
    [try] is caught.  The result is exactly one of the two variants: a Success
    with a text and a time and no error, or a Failure with an error and no
    text, which lacks the time exactly for the four kinds of [untimed].  (A
    truthy image of another type and [options] [null] are outside the model:
    there [validateInput] and [buildRequestBody] throw before the [try].) *)
Lemma generateRoast_well_shaped (img : option string) (opts : Options) (st : state) :
  exists r, fst (generate img opts st) = inl r /\ well_shaped r.
Proof.
  destruct (validateInput img) as [|e] eqn:V.
  2: { rewrite (generate_rejected img opts st e V). eexists. split; [reflexivity|].
       right. cbn. repeat split. exists e. split; [reflexivity|].
       split; [intros _; exact (validateInput_kinds img e V) | reflexivity]. }
  destruct (retry (buildRequestBody img opts) 0 st) as [[response | e] st1] eqn:R.
  2: { rewrite (generate_thrown img opts st st1 e V R). apply caught_well_shaped. }
  destruct (ok response) eqn:K.
  - rewrite (generate_ok img opts st st1 response V R K).
    destruct (json response) as [data|]; [|apply caught_well_shaped].
    destruct (processSuccessResponse data _) as [r | e] eqn:P; [|apply caught_well_shaped].
    destruct (Js.get data "usage") as [usage | e]; [|apply caught_well_shaped].
    destruct (updateUsageStats env _ true usage st1) as [[u | e] st2];
      [|apply caught_well_shaped].
    exists r. split; [reflexivity|].
    exact (processSuccessResponse_well_shaped _ _ _ P).
  - rewrite (generate_not_ok img opts st st1 response V R K).
    destruct (processErrorResponse response _ _) as [r | e] eqn:P;
      [|apply caught_well_shaped].
    exists r. split; [reflexivity|].
    exact (processErrorResponse_well_shaped _ _ _ _ P).
Qed.

(** *** Usage accounting *)

Lemma get_inl (v x : Js.value) (k : string) :
  Js.get v k = inl x -> x = Js.get_opt v k.
Proof.
  destruct v; cbn; intros H; try discriminate; injection H as <-; reflexivity.
Qed.

(** [updateUsageStats(t, false)] never throws. *)
Lemma updateUsageStats_failure (t : Q) (usage : Js.value) (st : state) :
  updateUsageStats env t false usage st
  = (inl tt, mkState env (world env st) (charged (usageStats env st) t) (trace env st)).
Proof. reflexivity. Qed.

(** [updateUsageStats(t, true, data.usage)], when it returns, has credited the
    tokens the body reports. *)
Lemma updateUsageStats_success (t : Q) (data usage : Js.value) (st st2 : state)
  (u : unit) :
  Js.get data "usage" = inl usage ->
  updateUsageStats env t true usage st = (inl u, st2) ->
  st2 = mkState env (world env st)
          (credited (usageStats env st) t (reported_tokens data)) (trace env st).
Proof.
  intros G. apply get_inl in G. unfold reported_tokens. rewrite <- G. clear G.
  unfold updateUsageStats.
  destruct usage; cbn; intros H; try discriminate; injection H as _ <-;
    reflexivity.
Qed.

Lemma tokens_of_app (h : list outcome) (o : outcome) :
  tokens_of (h ++ [o]) == tokens_of h + tokens_of [o].
Proof.
  set (x := tokens_of [o]).
  induction h as [|[t|] h IH]; cbn [app tokens_of].
  - subst x. destruct o; cbn [tokens_of]; ring.
  - rewrite IH. ring.
  - exact IH.
Qed.

Lemma failures_app (h : list outcome) (o : outcome) :
  failures (h ++ [o]) = (failures h + failures [o])%nat.
Proof.
  induction h as [|[t|] h IH]; cbn [app failures]; [reflexivity | exact IH | ].
  rewrite IH. reflexivity.
Qed.

(** A Success credits the request, the time and the reported tokens. *)
Lemma call_succeeded (t : Q) (st st' : state) :
  call (Succeeded t) st st' ->
  usageStats env st' = credited (usageStats env st) (elapsed st st') (Num t).
Proof.
  intros (img & opts & r & V & G & S & response & st1 & data & R & J & T).
  pose proof (makeRequestWithRetry_stats (buildRequestBody img opts) 0 st) as U.
  rewrite R in U. cbn in U.
  destruct (ok response) eqn:K.
  - rewrite (generate_ok img opts st st1 response V R K), J in G.
    destruct (processSuccessResponse data _) as [r' | e];
      [|unfold caught in G; injection G as <- <-; discriminate S].
    destruct (Js.get data "usage") as [usage | e] eqn:Gu;
      [|unfold caught in G; injection G as <- <-; discriminate S].
    destruct (updateUsageStats env _ true usage st1) as [[u | e] st2] eqn:Up;
      [|unfold caught in G; injection G as <- <-; discriminate S].
    injection G as <- <-.
    rewrite (updateUsageStats_success _ data usage st1 st2 u Gu Up).
    cbn [usageStats]. rewrite U, T. unfold elapsed. cbn [world]. reflexivity.
  - rewrite (generate_not_ok img opts st st1 response V R K) in G.
    destruct (processErrorResponse response _ _) as [r' | e] eqn:P.
    + injection G as <- <-.
      unfold processErrorResponse in P.
      repeat match type of P with
             | match ?x with _ => _ end = _ => destruct x
             | (if ?x then _ else _) = _ => destruct x
             end; try discriminate P; injection P as <-; discriminate S.
    + unfold caught in G. injection G as <- <-. discriminate S.
Qed.

(** A failed dispatch or a response that is not ok charges the request, the
    time and one error. *)
Lemma call_failed (st st' : state) :
  call Failed st st' ->
  usageStats env st' = charged (usageStats env st) (elapsed st st').
Proof.
  intros (img & opts & r & V & G & S & last & st1 & R & L).
  pose proof (makeRequestWithRetry_stats (buildRequestBody img opts) 0 st) as U.
  rewrite R in U. cbn in U.
  destruct last as [response | e].
  - rewrite (generate_not_ok img opts st st1 response V R L) in G.
    destruct (processErrorResponse response _ _) as [r' | e];
      [|unfold caught in G]; injection G as <- <-;
      cbn [usageStats]; rewrite U; reflexivity.
  - rewrite (generate_thrown img opts st st1 e V R) in G.
    unfold caught in G. injection G as <- <-.
    cbn [usageStats]. rewrite U. reflexivity.
Qed.

(** The counters of a fresh client after a history of calls. *)
Lemma history_totals (h : list outcome) (st st' : state) :
  history h st st' ->
  usageStats env st = new_stats ->
  totalRequests (usageStats env st') = Z.of_nat (List.length h) /\
  errorCount (usageStats env st') = Z.of_nat (failures h) /\
  exists q c,
    totalTokens (usageStats env st') = Num q /\ q == tokens_of h /\
    estimatedCost (usageStats env st') = Num c /\
    c == tokens_of h * COST_PER_TOKEN.
Proof.
  induction 1 as [st | h o st st1 st2 H IH C]; intros F.
  - rewrite F. cbn. repeat split. exists 0, 0. repeat split; try reflexivity.
  - destruct (IH F) as (N & E & q & c & Tq & Hq & Tc & Hc).
    rewrite length_app, failures_app. cbn [List.length failures].
    destruct o as [t|].
    + rewrite (call_succeeded t st1 st2 C). cbn.
      rewrite N, E, Tq, Tc. cbn.
      repeat split; try lia.
      exists (q + t), (c + t * COST_PER_TOKEN). repeat split.
      * rewrite tokens_of_app, Hq. cbn [tokens_of]. ring.
      * rewrite tokens_of_app, Hc. cbn [tokens_of]. ring.
    + rewrite (call_failed st1 st2 C). cbn.
      rewrite N, E. repeat split; try lia.
      exists q, c. repeat split; try assumption.
      * rewrite tokens_of_app, Hq. cbn [tokens_of]. ring.
      * rewrite tokens_of_app, Hc. cbn [tokens_of]. ring.
Qed.

(** [getUsageStats().errorRate] after a non-empty history on a fresh client. *)
Lemma history_error_rate (h : list outcome) (st st' : state) :
  history h st st' ->
  usageStats env st = new_stats ->
  h <> [] ->
  errorRate (getUsageStats (usageStats env st'))
  == inject_Z (Z.of_nat (failures h)) / inject_Z (Z.of_nat (List.length h)).
Proof.
  intros H F N. destruct (history_totals h st st' H F) as (R & E & _).
  unfold getUsageStats. cbn [errorRate]. rewrite R, E.
  destruct h as [|o h]; [congruence|].
  destruct (Z.gtb_spec (Z.of_nat (List.length (o :: h))) 0) as [_|L];
    [reflexivity | cbn [List.length] in L; lia].
Qed.

(** C4, amended: an input-validation rejection leaves the counters untouched.
    Every call on a valid image that ends in a Success adds one request, the
    elapsed time, the reported tokens and tokens times 0.00001 of cost, and
    leaves the error count; every call whose dispatch ends in a thrown error
    or in a response that is not ok adds one request, the elapsed time and one
    error.  Hence, on a fresh client, after any history of such calls
    [getUsageStats()] reports the number of calls, the sum of the reported
    tokens and the error rate failures / calls: 0 after Successes only, 0.5
    after one Success and one Failure. *)
Theorem usage_accounting :
  (forall img opts st e,
      validateInput img = InvalidInput e ->
      snd (generate img opts st) = st) /\
  (forall t st st',
      call (Succeeded t) st st' ->
      let u := usageStats env st in
      let u' := usageStats env st' in
      totalRequests u' = (totalRequests u + 1)%Z /\
      totalResponseTime u' = totalResponseTime u + elapsed st st' /\
      totalTokens u' = add (totalTokens u) (Num t) /\
      estimatedCost u' = add (estimatedCost u) (Num (t * (1 # 100000))) /\
      errorCount u' = errorCount u) /\
  (forall st st',
      call Failed st st' ->
      let u := usageStats env st in
      let u' := usageStats env st' in
      totalRequests u' = (totalRequests u + 1)%Z /\
      totalResponseTime u' = totalResponseTime u + elapsed st st' /\
      totalTokens u' = totalTokens u /\
      estimatedCost u' = estimatedCost u /\
      errorCount u' = (errorCount u + 1)%Z) /\
  (forall h st st',
      usageStats env st = new_stats ->
      history h st st' ->
      let report := getUsageStats (usageStats env st') in
      rep_totalRequests report = Z.of_nat (List.length h) /\
      (exists q, rep_totalTokens report = Num q /\ q == tokens_of h) /\
      (h <> [] ->
       errorRate report
       == inject_Z (Z.of_nat (failures h)) / inject_Z (Z.of_nat (List.length h))) /\
      (failures h = 0%nat -> errorRate report == 0) /\
      (forall t, h = [Succeeded t; Failed] \/ h = [Failed; Succeeded t] ->
                 errorRate report == 1 # 2)).
Proof.
  split; [|split; [|split]].
  - intros img opts st e V. rewrite (generate_rejected img opts st e V). reflexivity.
  - intros t st st' C u u'. subst u u'. rewrite (call_succeeded t st st' C).
    cbn. repeat split.
  - intros st st' C u u'. subst u u'. rewrite (call_failed st st' C).
    cbn. repeat split.
  - intros h st st' F H report.
    destruct (history_totals h st st' H F) as (R & E & q & c & Tq & Hq & _).
    assert (rate : h <> [] ->
                   errorRate report
                   == inject_Z (Z.of_nat (failures h))
                      / inject_Z (Z.of_nat (List.length h)))
      by exact (history_error_rate h st st' H F).
    repeat split.
    + exact R.
    + exists q. split; [exact Tq | exact Hq].
    + exact rate.
    + intros Z0. destruct h as [|o h].
      * subst report. unfold getUsageStats. cbn [errorRate]. rewrite R. reflexivity.
      * rewrite rate by discriminate. rewrite Z0. reflexivity.
    + intros t [-> | ->]; rewrite rate by discriminate; reflexivity.
Qed.

End ClientFacts.

(** The classification at concrete inputs: a transport double that answers
    429. *)
Example generateRoast_classifies_429 :
  let net := Scenario.always_429 in
  let env := Scenario.browser net in
  let st := Scenario.fresh net in
  let body := OpenAIClient.buildRequestBody Scenario.image OpenAIClient.no_options in
  let answer :=
    OpenAIClient.request env (Scenario.scripted_fetch net) (Some "sk-test") body st in
  OpenAIClient.validateInput Scenario.image = OpenAIClient.ValidInput /\
  fst answer = inl (mkResponse false 429 (Some (Scenario.error_body "rate_limit_exceeded"))) /\
  exists r st',
    Scenario.roast_with_double net Scenario.image OpenAIClient.no_options st
    = (inl r, st') /\
    OpenAIClient.success r = false /\
    OpenAIClient.processingTimeMs r = Some (OpenAIClient.elapsed env st (snd answer)) /\
    OpenAIClient.trace env st' = (OpenAIClient.trace env st ++ [OpenAIClient.Sent])%list /\
    option_map OpenAIClient.type (OpenAIClient.error r) = Some OpenAIClient.rate_limit /\
    option_map OpenAIClient.retryAfterSeconds (OpenAIClient.error r) = Some (Some 60).
Proof.
  intros net env st body answer.
  split; [reflexivity|]. split; [reflexivity|].
  destruct (generateRoast_classifies_error env (Scenario.scripted_fetch net)
              (Some "sk-test") Scenario.image OpenAIClient.no_options st (snd answer)
              (mkResponse false 429 (Some (Scenario.error_body "rate_limit_exceeded")))
              eq_refl eq_refl eq_refl)
    as (r & st' & G & S & P & T & H429 & _).
  exists r, st'. destruct (H429 eq_refl) as [K A].
  repeat split; assumption.
Qed.

(** A transport double that answers 400: the code [content_policy_violation]
    gives [content_policy], another code [api_error], and a body that is the
    JSON literal [null] gives [network_error]. *)
Example generateRoast_classifies_400 :
  let answers (body : Js.value) : Scenario.script :=
    fun _ => (50, inl (mkResponse false 400 (Some body))) in
  let kind (body : Js.value) :=
    option_map OpenAIClient.type
      (match fst (Scenario.roast_with_double (answers body) Scenario.image
                    OpenAIClient.no_options (Scenario.fresh _)) with
       | inl r => OpenAIClient.error r
       | inr _ => None
       end) in
  kind (Scenario.error_body "content_policy_violation") = Some OpenAIClient.content_policy /\
  kind (Scenario.error_body "invalid_request_error") = Some OpenAIClient.api_error /\
  kind (Js.VObj []) = Some OpenAIClient.api_error /\
  kind Js.VNull = Some OpenAIClient.network_error.
Proof. repeat split. Qed.

(** C1, as stated, fails: with a transport that throws a retryable error after
    4 s on every call, the three attempts and two waits take 15 s and the
    result is a [timeout] Failure, not [network_error]. *)
Lemma generateRoast_slow_failures_time_out :
  (forall k, exists e,
      snd (Scenario.always_down_slowly k) = inr e /\
      OpenAIClient.shouldRetry e = true) /\
  fst (Scenario.roast_with_double Scenario.always_down_slowly Scenario.image
         OpenAIClient.no_options (Scenario.fresh _))
  = inl (OpenAIClient.failure 15000
           (OpenAIClient.mkError OpenAIClient.timeout_error
              "Request timed out after 10 seconds" None)).
Proof.
  split; [|reflexivity].
  intros k. eexists. split; reflexivity.
Qed.

(** C1, amended, at a concrete input: a transport that fails after 10 ms on
    every call. *)
Lemma generateRoast_retry_bound_offline :
  let net := Scenario.always_down in
  let env := Scenario.browser net in
  let st := Scenario.fresh net in
  OpenAIClient.validateInput Scenario.image = OpenAIClient.ValidInput /\
  exists r st',
    Scenario.roast_with_double net Scenario.image OpenAIClient.no_options st
    = (inl r, st') /\
    OpenAIClient.trace env st'
    = (OpenAIClient.trace env st
       ++ [OpenAIClient.Sent; OpenAIClient.Delayed 1000; OpenAIClient.Sent;
           OpenAIClient.Delayed 2000; OpenAIClient.Sent])%list /\
    OpenAIClient.success r = false /\
    OpenAIClient.processingTimeMs r = Some (OpenAIClient.elapsed env st st') /\
    option_map OpenAIClient.type (OpenAIClient.error r)
    = Some (if OpenAIClient.gt (OpenAIClient.elapsed env st st') 10000
            then OpenAIClient.timeout_error else OpenAIClient.network_error) /\
    OpenAIClient.usageStats env st'
    = OpenAIClient.charged (OpenAIClient.usageStats env st) (OpenAIClient.elapsed env st st').
Proof.
  intros net env st. split; [reflexivity|].
  apply (generateRoast_retry_bound env (Scenario.scripted_fetch net) (Some "sk-test")
           Scenario.image OpenAIClient.no_options st eq_refl).
  intros endpoint options w. do 2 eexists. split; reflexivity.
Defined.

(** C5: results without an elapsed-time field.  An input-validation rejection
    and an invalid-response outcome are Failures that carry no
    [processingTimeMs] (the interface the repository documents makes the field
    mandatory, and every other Failure has it). *)
Theorem generateRoast_results_without_elapsed_time :
  fst (Scenario.roast Scenario.always_nice None OpenAIClient.no_options)
  = inl (OpenAIClient.mkResult false None None
           (Some (OpenAIClient.mkError OpenAIClient.invalid_input
                    "No image provided" None))) /\
  fst (Scenario.roast Scenario.always_malformed Scenario.image OpenAIClient.no_options)
  = inl (OpenAIClient.mkResult false None None
           (Some (OpenAIClient.mkError OpenAIClient.invalid_response
                    "Invalid API response format" None))).
Proof. split; reflexivity. Qed.

(** ** The shipped transport *)

Section ProxyFacts.

Context {Body : Type}.
Variable env : Env Body.

(** X19: [makeRequest] hands back a response only when it is ok; in every other
    case it throws the one generic error, whatever the strategies met. *)
Lemma makeRequest_outcome (p : CorsProxy.proxy) (endpoint : string)
  (options : Init Body) (w : World env) :
  match fst (CorsProxy.makeRequest env p endpoint options w) with
  | inl response => ok response = true
  | inr e => e = Js.Error (Some "All proxy strategies failed")
  end.
Proof.
  unfold CorsProxy.makeRequest.
  generalize (CorsProxy.strategy p :: CorsProxy.fallbackStrategies p) as strategies.
  intros strategies. revert w.
  induction strategies as [|s rest IH]; intros w; cbn [CorsProxy.tryStrategies].
  - reflexivity.
  - destruct (CorsProxy.executeStrategy env p s endpoint options w)
      as [[response | e] w'].
    + destruct (ok response) eqn:K; [exact K | apply IH].
    + apply IH.
Qed.

(** That error is one [shouldRetry] accepts: its message names no status. *)
Lemma generic_error_is_retried :
  OpenAIClient.shouldRetry (Js.Error (Some "All proxy strategies failed")) = true.
Proof. reflexivity. Qed.

(** When no HTTP call is answered with an ok response and the mock strategy is
    not configured, every call of [makeRequest] throws a retryable error. *)
Lemma makeRequest_rejections_throw (p : CorsProxy.proxy) :
  (forall url init w,
      match fst (fetch env url init w) with
      | inl response => ok response = false
      | inr _ => True
      end) ->
  ~ In CorsProxy.MOCK (CorsProxy.strategy p :: CorsProxy.fallbackStrategies p) ->
  forall endpoint options w, exists e w',
    CorsProxy.makeRequest env p endpoint options w = (inr e, w') /\
    OpenAIClient.shouldRetry e = true.
Proof.
  intros net nomock endpoint options. unfold CorsProxy.makeRequest.
  revert nomock.
  generalize (CorsProxy.strategy p :: CorsProxy.fallbackStrategies p) as strategies.
  induction strategies as [|s rest IH]; intros nomock w; cbn [CorsProxy.tryStrategies].
  - do 2 eexists. split; reflexivity.
  - assert (nomock' : ~ In CorsProxy.MOCK rest) by (intros H; apply nomock; right; exact H).
    assert (fails : match fst (CorsProxy.executeStrategy env p s endpoint options w) with
                    | inl response => ok response = false
                    | inr _ => True
                    end).
    { unfold CorsProxy.executeStrategy.
      destruct (s =? CorsProxy.DIRECT); [apply net|].
      destruct (s =? CorsProxy.CORS_PROXY_STRATEGY); [apply net|].
      destruct (s =? CorsProxy.CUSTOM_PROXY); [apply net|].
      destruct (String.eqb_spec s CorsProxy.MOCK) as [->|_].
      - exfalso. apply nomock. left. reflexivity.
      - exact I. }
    destruct (CorsProxy.executeStrategy env p s endpoint options w)
      as [[response | e] w']; cbn in fails.
    + rewrite fails. apply IH. exact nomock'.
    + apply IH. exact nomock'.
Qed.

End ProxyFacts.

(** X21: with the shipped transport an HTTP rejection never reaches the client:
    whatever the status (401, 429, 503, ...), a valid request is sent three
    times and ends as [network_error] or [timeout]. *)
Lemma generateRoast_retries_rejections (env : Env OpenAIClient.RequestBody)
  (p : CorsProxy.proxy) (apiKey : option string) (img : option string)
  (opts : OpenAIClient.Options) (st : OpenAIClient.state env) :
  (forall url init w,
      match fst (fetch env url init w) with
      | inl response => ok response = false
      | inr _ => True
      end) ->
  ~ In CorsProxy.MOCK (CorsProxy.strategy p :: CorsProxy.fallbackStrategies p) ->
  OpenAIClient.validateInput img = OpenAIClient.ValidInput ->
  exists r st',
    OpenAIClient.generateRoast env (CorsProxy.makeRequest env p) apiKey img opts st
    = (inl r, st') /\
    OpenAIClient.trace env st'
    = (OpenAIClient.trace env st
       ++ [OpenAIClient.Sent; OpenAIClient.Delayed 1000; OpenAIClient.Sent;
           OpenAIClient.Delayed 2000; OpenAIClient.Sent])%list /\
    (option_map OpenAIClient.type (OpenAIClient.error r) = Some OpenAIClient.network_error \/
     option_map OpenAIClient.type (OpenAIClient.error r) = Some OpenAIClient.timeout_error).
Proof.
  intros net nomock V.
  destruct (makeRequestWithRetry_exhausted env (CorsProxy.makeRequest env p) apiKey
              (OpenAIClient.buildRequestBody img opts) st
              (makeRequest_rejections_throw env p net nomock))
    as (e & st3 & R & _ & T).
  rewrite (generate_thrown env _ apiKey img opts st st3 e V R).
  unfold OpenAIClient.caught.
  do 2 eexists. split; [reflexivity|]. split; [exact T|].
  cbn. destruct (OpenAIClient.gt _ 10000); [right | left]; reflexivity.
Qed.

(** C2: with the shipped dispatcher, an API that answers every call with HTTP
    401 is called again and again: three dispatcher calls (six HTTP calls after
    the probe), 1000 ms and 2000 ms apart, and the result is [network_error],
    not the [api_error] rejection. *)
Theorem generateRoast_retries_http_401 :
  let run := Scenario.roast Scenario.always_401 Scenario.image OpenAIClient.no_options in
  fst (Scenario.corsProxy Scenario.always_401)
  = CorsProxy.mkProxy "custom" "/api/proxy" [ "direct" ] /\
  fst run
  = inl (OpenAIClient.failure 3300
           (OpenAIClient.mkError OpenAIClient.network_error
              "Network request failed" None)) /\
  OpenAIClient.trace _ (snd run)
  = [ OpenAIClient.Sent; OpenAIClient.Delayed 1000; OpenAIClient.Sent;
      OpenAIClient.Delayed 2000; OpenAIClient.Sent ] /\
  Scenario.fetched (OpenAIClient.world _ (snd run))
  = [ "undefined/health";
      "/api/proxy/chat/completions"; "https://api.openai.com/v1/chat/completions";
      "/api/proxy/chat/completions"; "https://api.openai.com/v1/chat/completions";
      "/api/proxy/chat/completions"; "https://api.openai.com/v1/chat/completions" ].
Proof. repeat split; reflexivity. Qed.

(** C8: with the shipped dispatcher a response that is not ok is never
    classified.  Whatever status and error body the API answers with (429,
    401, 400 with a content-policy code, 503, ...), the dispatcher keeps the
    response to itself and throws its generic error, the client calls it three
    times, 1000 ms and 2000 ms apart, and the result is [network_error] with
    no [retryAfterSeconds], not [rate_limit], [api_error], [content_policy]
    or [service_unavailable].  [processErrorResponse], which holds the
    classification, would have answered as the claim says. *)
Theorem generateRoast_rejection_unclassified (status : Z)
  (errorData : option Js.value) :
  let net : Scenario.script :=
    fun _ => (50, inl (mkResponse false status errorData)) in
  let run := Scenario.roast net Scenario.image OpenAIClient.no_options in
  fst run
  = inl (OpenAIClient.failure 3300
           (OpenAIClient.mkError OpenAIClient.network_error
              "Network request failed" None)) /\
  OpenAIClient.trace _ (snd run)
  = [ OpenAIClient.Sent; OpenAIClient.Delayed 1000; OpenAIClient.Sent;
      OpenAIClient.Delayed 2000; OpenAIClient.Sent ] /\
  Scenario.fetched (OpenAIClient.world _ (snd run))
  = [ "undefined/health";
      "/api/proxy/chat/completions"; "https://api.openai.com/v1/chat/completions";
      "/api/proxy/chat/completions"; "https://api.openai.com/v1/chat/completions";
      "/api/proxy/chat/completions"; "https://api.openai.com/v1/chat/completions" ] /\
  OpenAIClient.processErrorResponse (mkResponse false 429 errorData) (Js.VObj []) 100
  = inl (OpenAIClient.failure 100
           (OpenAIClient.mkError OpenAIClient.rate_limit
              "Rate limit exceeded. Please wait before trying again." (Some 60))) /\
  OpenAIClient.processErrorResponse (mkResponse false 503 errorData) (Js.VObj []) 100
  = inl (OpenAIClient.failure 100
           (OpenAIClient.mkError OpenAIClient.service_unavailable
              "OpenAI service temporarily unavailable" (Some 30))).
Proof. repeat split; reflexivity. Qed.

(** C4, as stated, fails: a rejected input is a terminal outcome, yet the
    request count, the elapsed time and the error count stay as they were. *)
Lemma generateRoast_rejection_not_counted :
  let run := Scenario.roast Scenario.always_nice None OpenAIClient.no_options in
  option_map OpenAIClient.type
    (match fst run with inl r => OpenAIClient.error r | inr _ => None end)
  = Some OpenAIClient.invalid_input /\
  OpenAIClient.usageStats _ (snd run) = OpenAIClient.new_stats /\
  OpenAIClient.totalRequests (OpenAIClient.usageStats _ (snd run)) <> 1%Z /\
  OpenAIClient.errorCount (OpenAIClient.usageStats _ (snd run)) <> 1%Z.
Proof. repeat split; try reflexivity; discriminate. Qed.

(** A completion that turns out unusable (here: no [choices]) is returned as a
    Failure but booked as a success: one request, no error. *)
Example generateRoast_unusable_completion_booked_as_success :
  let run := Scenario.roast Scenario.always_malformed Scenario.image OpenAIClient.no_options in
  option_map OpenAIClient.type
    (match fst run with inl r => OpenAIClient.error r | inr _ => None end)
  = Some OpenAIClient.invalid_response /\
  OpenAIClient.totalRequests (OpenAIClient.usageStats _ (snd run)) = 1%Z /\
  OpenAIClient.errorCount (OpenAIClient.usageStats _ (snd run)) = 0%Z.
Proof. repeat split. Qed.

(** C4, amended, at a concrete input: one Success (50 tokens) and then one
    Failure (503) through a transport double, on a fresh client: two requests,
    50 tokens, error rate 0.5. *)
Lemma usage_after_success_and_failure :
  let net := Scenario.nice_then_503 in
  let env := Scenario.browser net in
  let first :=
    Scenario.roast_with_double net Scenario.image OpenAIClient.no_options
      (Scenario.fresh net) in
  let second :=
    Scenario.roast_with_double net Scenario.image OpenAIClient.no_options (snd first) in
  let report :=
    OpenAIClient.getUsageStats (OpenAIClient.usageStats env (snd second)) in
  OpenAIClient.history env (Scenario.scripted_fetch net) (Some "sk-test")
    [OpenAIClient.Succeeded 50; OpenAIClient.Failed] (Scenario.fresh net) (snd second) /\
  OpenAIClient.rep_totalRequests report = 2%Z /\
  (exists q, OpenAIClient.rep_totalTokens report = OpenAIClient.Num q /\ q == 50) /\
  OpenAIClient.errorRate report == 1 # 2.
Proof.
  intros net env first second report.
  assert (H : OpenAIClient.history env (Scenario.scripted_fetch net) (Some "sk-test")
                [OpenAIClient.Succeeded 50; OpenAIClient.Failed] (Scenario.fresh net) (snd second)).
  { apply (OpenAIClient.history_snoc env _ _ [OpenAIClient.Succeeded 50] OpenAIClient.Failed (Scenario.fresh net)
             (snd first) (snd second)).
    - apply (OpenAIClient.history_snoc env _ _ [] (OpenAIClient.Succeeded 50) (Scenario.fresh net)
               (Scenario.fresh net) (snd first)); [constructor|].
      exists Scenario.image, OpenAIClient.no_options,
        (OpenAIClient.mkResult true (Some "Nice hat.") (Some 800) None).
      split; [reflexivity|]. split.
      { transitivity (fst first, snd first);
          [apply surjective_pairing | reflexivity]. }
      split; [reflexivity|].
      exists (mkResponse true 200 (Some (Scenario.completion (Js.VStr "Nice hat.") 50))).
      do 2 eexists. split; [|split; reflexivity].
      apply makeRequestWithRetry_response.
      match goal with |- ?call = _ =>
        transitivity (fst call, snd call); [apply surjective_pairing | reflexivity]
      end.
    - exists Scenario.image, OpenAIClient.no_options,
        (OpenAIClient.failure 50
           (OpenAIClient.mkError OpenAIClient.service_unavailable
              "OpenAI service temporarily unavailable" (Some 30))).
      split; [reflexivity|]. split.
      { transitivity (fst second, snd second);
          [apply surjective_pairing | reflexivity]. }
      split; [reflexivity|].
      exists (inl (mkResponse false 503 (Some (Scenario.error_body "service_unavailable")))).
      eexists. split; [|reflexivity].
      apply makeRequestWithRetry_response.
      match goal with |- ?call = _ =>
        transitivity (fst call, snd call); [apply surjective_pairing | reflexivity]
      end. }
  split; [exact H|].
  destruct (usage_accounting env (Scenario.scripted_fetch net) (Some "sk-test"))
    as (_ & _ & _ & A).
  destruct (A [OpenAIClient.Succeeded 50; OpenAIClient.Failed] (Scenario.fresh net) (snd second) eq_refl H)
    as (R & (q & Tq & Hq) & _ & _ & Half).
  split; [exact R|]. split.
  - exists q. split; [exact Tq|]. rewrite Hq. reflexivity.
  - apply (Half 50). left. reflexivity.
Defined.

(** ** File names *)

Section FilenameFacts.

Import Filename.

Lemma all_mapChars (p q : ascii -> bool) (f : ascii -> ascii) (s : string) :
  (forall c, q c = true -> p (f c) = true) ->
  all q s = true -> all p (mapChars f s) = true.
Proof.
  intros H. induction s as [|c r IH]; cbn; [reflexivity|].
  intros A. apply andb_prop in A as [A1 A2].
  rewrite (H c A1), (IH A2). reflexivity.
Qed.

Lemma all_true (s : string) : all (fun _ => true) s = true.
Proof. induction s as [|c r IH]; cbn; [reflexivity | exact IH]. Qed.

Lemma all_append (p : ascii -> bool) (a b : string) :
  all p (a ++ b) = all p a && all p b.
Proof.
  induction a as [|c r IH]; cbn; [reflexivity|].
  rewrite IH, andb_assoc. reflexivity.
Qed.

Lemma all_substring (p : ascii -> bool) (s : string) (n m : nat) :
  all p s = true -> all p (String.substring n m s) = true.
Proof.
  revert n m. induction s as [|c r IH]; intros n m A.
  - destruct n, m; reflexivity.
  - cbn in A. apply andb_prop in A as [A1 A2].
    destruct n as [|n]; [destruct m as [|m]|]; cbn.
    + reflexivity.
    + rewrite A1, (IH 0%nat m A2). reflexivity.
    + apply IH. exact A2.
Qed.

Lemma length_substring (s : string) (m : nat) :
  (String.length (String.substring 0 m s) <= m)%nat.
Proof.
  revert m. induction s as [|c r IH]; intros [|m]; cbn; try lia.
  specialize (IH m). lia.
Qed.

Lemma length_mapChars (f : ascii -> ascii) (s : string) :
  String.length (mapChars f s) = String.length s.
Proof. induction s as [|c r IH]; cbn; [reflexivity | rewrite IH; reflexivity]. Qed.

Lemma length_append (a b : string) :
  String.length (a ++ b) = (String.length a + String.length b)%nat.
Proof. induction a as [|c r IH]; cbn; [reflexivity | rewrite IH; reflexivity]. Qed.

Lemma mapChars_append (f : ascii -> ascii) (a b : string) :
  mapChars f (a ++ b) = mapChars f a ++ mapChars f b.
Proof. induction a as [|c r IH]; cbn; [reflexivity | rewrite IH; reflexivity]. Qed.

(** The parts of a split keep the characters of the string and hold no
    separator. *)
Lemma split_parts (p : ascii -> bool) (sep : ascii) (s : string) :
  all p s = true ->
  Forall (fun x => all p x = true
                   /\ all (fun c => negb (c =? sep)%char) x = true)
    (split sep s).
Proof.
  induction s as [|c r IH]; cbn [split all]; intros A.
  - repeat constructor.
  - apply andb_prop in A as [A1 A2]. specialize (IH A2).
    destruct (c =? sep)%char eqn:E.
    + constructor; [split; reflexivity | exact IH].
    + destruct (split sep r) as [|x xs].
      * repeat constructor; cbn; rewrite ?A1, ?E; reflexivity.
      * inversion IH as [|? ? [H1 H2] H3]; subst.
        constructor; [|exact H3]. cbn. rewrite A1, E, H1, H2. split; reflexivity.
Qed.

Lemma Forall_last (P : string -> Prop) (l : list string) (d : string) :
  P d -> Forall P l -> P (List.last l d).
Proof.
  intros D. induction 1 as [|x l Hx Hl IH]; [exact D|].
  destruct l; [exact Hx | exact IH].
Qed.

Lemma Forall_removelast (P : string -> Prop) (l : list string) :
  Forall P l -> Forall P (List.removelast l).
Proof.
  induction 1 as [|x l Hx Hl IH]; [constructor|].
  cbn. destruct l; [constructor | constructor; assumption].
Qed.

Lemma all_concat (p : ascii -> bool) (sep : string) (l : list string) :
  all p sep = true -> Forall (fun x => all p x = true) l ->
  all p (String.concat sep l) = true.
Proof.
  intros S. induction 1 as [|x l Hx Hl IH]; [reflexivity|].
  cbn. destruct l as [|y l']; [exact Hx|].
  rewrite !all_append, Hx, S. exact IH.
Qed.

Lemma replaceDangerous_cleaned (s : string) :
  all cleaned_char (replaceDangerous s) = true.
Proof.
  unfold replaceDangerous.
  apply (all_mapChars cleaned_char (fun _ => true)); [|apply all_true].
  intros c _. unfold cleaned_char. destruct (allowed c) eqn:A.
  - rewrite A. reflexivity.
  - rewrite orb_true_r. reflexivity.
Qed.

Lemma lower_cleaned (c : ascii) : cleaned_char c = true -> safe (lower c) = true.
Proof.
  destruct c as [[] [] [] [] [] [] [] []]; vm_compute; intros H;
    first [reflexivity | discriminate H].
Qed.

Lemma lower_dot (c : ascii) :
  negb (c =? ".")%char = true -> negb (lower c =? ".")%char = true.
Proof.
  destruct c as [[] [] [] [] [] [] [] []]; vm_compute; intros H;
    first [reflexivity | discriminate H].
Qed.

(** What [sanitizeFilename] lower-cases in the end. *)
Lemma sanitizeFilename_body (filename : string) :
  exists body,
    sanitizeFilename filename = toLowerCase body /\
    all cleaned_char body = true /\
    (String.length body <= 100)%nat.
Proof.
  unfold sanitizeFilename.
  set (cleaned := replaceDangerous (removeTraversal filename)).
  pose proof (replaceDangerous_cleaned (removeTraversal filename)) as C.
  fold cleaned in C.
  pose proof (split_parts cleaned_char "." cleaned C) as P.
  destruct ((1 <? List.length (split "." cleaned))%nat
            && (String.length (List.last (split "." cleaned) "") <=? 4)%nat) eqn:B.
  - eexists. split; [reflexivity|].
    apply andb_prop in B as [_ L]. apply Nat.leb_le in L.
    split.
    + rewrite !all_append. cbn [all].
      rewrite all_substring.
      * assert (E : all cleaned_char (List.last (split "." cleaned) "") = true).
        { apply (Forall_last (fun x => all cleaned_char x = true)); [reflexivity|].
          eapply Forall_impl; [|exact P]. intros x [H _]. exact H. }
        rewrite E. reflexivity.
      * apply all_concat; [reflexivity|]. apply Forall_removelast.
        eapply Forall_impl; [|exact P]. intros x [H _]. exact H.
    + rewrite !length_append. cbn [String.length].
      pose proof (length_substring
                    (String.concat "_" (List.removelast (split "." cleaned))) 95).
      lia.
  - eexists. split; [reflexivity|]. split.
    + apply all_substring. exact C.
    + apply length_substring.
Qed.

End FilenameFacts.

(** X1: whatever the file name, the sanitized name is made only of lower-case
    letters, digits, dots, dashes and underscores (so it holds no slash,
    backslash, space or upper-case letter), and it is at most 100 characters
    long. *)
Theorem sanitizeFilename_safe (filename : string) :
  Filename.all Filename.safe (Filename.sanitizeFilename filename) = true /\
  (String.length (Filename.sanitizeFilename filename) <= 100)%nat.
Proof.
  destruct (sanitizeFilename_body filename) as (body & -> & C & L).
  split.
  - unfold Filename.toLowerCase.
    apply (all_mapChars Filename.safe Filename.cleaned_char); [exact lower_cleaned | exact C].
  - unfold Filename.toLowerCase. rewrite length_mapChars. exact L.
Qed.

(** X2: when the cleaned name ends in a dot-separated part of at most four
    characters, the sanitized name has exactly one dot: a stem of at most 95
    characters without dots (earlier dots have become underscores), the dot,
    and that last part in lower case. *)
Theorem sanitizeFilename_extension (filename : string) :
  let cleaned := Filename.replaceDangerous (Filename.removeTraversal filename) in
  let parts := Filename.split "." cleaned in
  let extension := List.last parts EmptyString in
  (1 < List.length parts)%nat ->
  (String.length extension <= 4)%nat ->
  exists stem,
    Filename.sanitizeFilename filename
    = stem ++ "." ++ Filename.toLowerCase extension /\
    (String.length stem <= 95)%nat /\
    Filename.all Filename.not_dot stem = true /\
    Filename.all Filename.not_dot (Filename.toLowerCase extension) = true.
Proof.
  intros cleaned parts extension N L.
  pose proof (split_parts (fun _ => true) "." cleaned (all_true cleaned)) as P.
  fold parts in P.
  assert (D : Forall (fun x => Filename.all Filename.not_dot x = true) parts).
  { eapply Forall_impl; [|exact P]. intros x [_ H]. exact H. }
  unfold Filename.sanitizeFilename. fold cleaned. fold parts. fold extension.
  apply Nat.ltb_lt in N. apply Nat.leb_le in L. rewrite N, L. cbn [andb].
  unfold Filename.toLowerCase. rewrite !mapChars_append.
  eexists. split; [reflexivity|]. split; [|split].
  - rewrite length_mapChars. apply length_substring.
  - apply (all_mapChars Filename.not_dot Filename.not_dot); [exact lower_dot|].
    apply all_substring. apply all_concat; [reflexivity|].
    apply Forall_removelast. exact D.
  - apply (all_mapChars Filename.not_dot Filename.not_dot); [exact lower_dot|].
    apply (Forall_last (fun x => Filename.all Filename.not_dot x = true));
      [reflexivity | exact D].
Qed.

(** X2 at a concrete name: spaces and inner dots become underscores, the
    extension is kept in lower case. *)
Lemma sanitizeFilename_extension_photo :
  (1 < List.length
         (Filename.split "."
            (Filename.replaceDangerous (Filename.removeTraversal "My Photo.v2.JPG"))))%nat /\
  (String.length
     (List.last
        (Filename.split "."
           (Filename.replaceDangerous (Filename.removeTraversal "My Photo.v2.JPG")))
        EmptyString) <= 4)%nat /\
  exists stem,
    Filename.sanitizeFilename "My Photo.v2.JPG"
    = stem ++ "." ++ Filename.toLowerCase
                       (List.last
                          (Filename.split "."
                             (Filename.replaceDangerous
                                (Filename.removeTraversal "My Photo.v2.JPG")))
                          EmptyString) /\
    (String.length stem <= 95)%nat /\
    Filename.all Filename.not_dot stem = true /\
    Filename.all Filename.not_dot
      (Filename.toLowerCase
         (List.last
            (Filename.split "."
               (Filename.replaceDangerous (Filename.removeTraversal "My Photo.v2.JPG")))
            EmptyString)) = true.
Proof.
  assert (N : (1 < List.length
                     (Filename.split "."
                        (Filename.replaceDangerous
                           (Filename.removeTraversal "My Photo.v2.JPG"))))%nat)
    by (vm_compute; lia).
  assert (L : (String.length
                 (List.last
                    (Filename.split "."
                       (Filename.replaceDangerous
                          (Filename.removeTraversal "My Photo.v2.JPG")))
                    EmptyString) <= 4)%nat)
    by (vm_compute; lia).
  split; [exact N|]. split; [exact L|].
  exact (sanitizeFilename_extension "My Photo.v2.JPG" N L).
Defined.

Example sanitizeFilename_photo :
  Filename.sanitizeFilename "My Photo.v2.JPG" = "my_photo_v2.jpg" /\
  Filename.sanitizeFilename "../../etc/passwd" = "etc_passwd" /\
  Filename.sanitizeFilename "" = "".
Proof. repeat split; reflexivity. Qed.

(** ** The dispatcher's strategies *)

Section StrategyFacts.

Context {Body : Type}.
Variable env : Env Body.

Lemma get_header_set (hs : list (string * string)) (k v : string) :
  get_header (set_header hs k v) k = Some v.
Proof.
  induction hs as [|[k' v'] hs IH]; cbn.
  - rewrite String.eqb_refl. reflexivity.
  - destruct (k' =? k) eqn:E; cbn.
    + rewrite String.eqb_refl. reflexivity.
    + rewrite E. exact IH.
Qed.

Lemma get_header_set_other (hs : list (string * string)) (k k' v : string) :
  k' <> k -> get_header (set_header hs k v) k' = get_header hs k'.
Proof.
  intros N. assert (N' : (k =? k') = false) by (apply String.eqb_neq; congruence).
  induction hs as [|[k0 v0] hs IH]; cbn.
  - rewrite N'. reflexivity.
  - destruct (k0 =? k) eqn:E; cbn.
    + apply String.eqb_eq in E. subst k0. rewrite !N'. reflexivity.
    + destruct (k0 =? k'); [reflexivity | exact IH].
Qed.

End StrategyFacts.

(** X3: a strategy name that [executeStrategy] does not know is skipped
    without any effect: the dispatcher behaves as if the unknown names were not
    in the list. *)
Theorem tryStrategies_skips_unknown {Body : Type} (env : Env Body)
  (p : CorsProxy.proxy) (strategies : list string) (endpoint : string)
  (options : Init Body) (w : World env) :
  CorsProxy.tryStrategies env p strategies endpoint options w
  = CorsProxy.tryStrategies env p (List.filter known strategies) endpoint options w.
Proof.
  revert w. induction strategies as [|s rest IH]; intros w; [reflexivity|].
  cbn [List.filter]. destruct (known s) eqn:K.
  - cbn [CorsProxy.tryStrategies].
    destruct (CorsProxy.executeStrategy env p s endpoint options w)
      as [[response | e] w']; [destruct (ok response)|]; try reflexivity; apply IH.
  - cbn [CorsProxy.tryStrategies]. unfold CorsProxy.executeStrategy.
    unfold known in K.
    apply orb_false_iff in K as [K M]. apply orb_false_iff in K as [K C].
    apply orb_false_iff in K as [D R].
    rewrite D, R, C, M. cbn. apply IH.
Qed.

(** X4: each network strategy forwards the caller's [Authorization] header
    unchanged and forces [Content-Type: application/json]: the direct strategy
    to the API URL in [cors] mode, the relay strategy to the relay URL that
    wraps the escaped API URL, with [X-Requested-With: XMLHttpRequest] added,
    and the backend strategy to the backend path. *)
Theorem executeStrategy_requests {Body : Type} (env : Env Body)
  (p : CorsProxy.proxy) (endpoint : string) (options : Init Body) (w : World env) :
  let api := ("https://api.openai.com/v1/" ++ endpoint)%string in
  let forwards (init : Init Body) :=
    get_header (headers init) "Authorization"
    = get_header (headers options) "Authorization" /\
    get_header (headers init) "Content-Type" = Some "application/json" /\
    method init = method options /\ body init = body options in
  (exists init,
      CorsProxy.executeStrategy env p "direct" endpoint options w
      = fetch env api init w /\
      forwards init /\ mode init = Some "cors") /\
  (exists init,
      CorsProxy.executeStrategy env p "cors_proxy" endpoint options w
      = fetch env ("https://corsproxy.io/?" ++ encodeURIComponent env api)%string init w /\
      forwards init /\
      get_header (headers init) "X-Requested-With" = Some "XMLHttpRequest") /\
  (exists init,
      CorsProxy.executeStrategy env p "custom" endpoint options w
      = fetch env (CorsProxy.customProxyUrl p ++ "/" ++ endpoint)%string init w /\
      forwards init).
Proof.
  intros api forwards. subst forwards. cbv beta.
  repeat split; eexists;
    (split; [reflexivity|]); cbn [headers method body mode];
    repeat split;
    rewrite ?get_header_set, ?get_header_set_other by discriminate;
    rewrite ?get_header_set, ?get_header_set_other by discriminate;
    reflexivity.
Qed.

(** ** Input validation, personas and sanitised text *)

(** X5: [validateInput] accepts exactly the strings that start with
    [data:image/] and are at most 13946060 characters long (the largest
    length not above 10 * 1024 * 1024 * 1.33); [null], [undefined] and every
    other string are rejected. *)
Theorem validateInput_accepts (base64Image : option string) :
  OpenAIClient.validateInput base64Image = OpenAIClient.ValidInput <->
  exists s,
    base64Image = Some s /\
    Js.startsWith s "data:image/" = true /\
    (Z.of_nat (String.length s) <= 13946060)%Z.
Proof.
  assert (bound : forall n : Z,
             OpenAIClient.gt (inject_Z n) OpenAIClient.MAX_BASE64_LENGTH = false
             <-> (n <= 13946060)%Z).
  { intros n. unfold OpenAIClient.gt. rewrite negb_false_iff, Qle_bool_iff.
    replace OpenAIClient.MAX_BASE64_LENGTH with (1394606080 # 100) by reflexivity.
    unfold Qle, inject_Z. cbn [Qnum Qden]. lia. }
  unfold OpenAIClient.validateInput. split.
  - destruct base64Image as [[|c s]|]; try discriminate.
    destruct (Js.startsWith (String c s) "data:image/") eqn:P; cbn [negb];
      [|discriminate].
    destruct (OpenAIClient.gt _ _) eqn:G; [discriminate|].
    intros _. exists (String c s). repeat split; [exact P|].
    apply bound. exact G.
  - intros (s & -> & P & L). destruct s as [|c s]; [discriminate P|].
    rewrite P. cbn [negb]. apply bound in L. rewrite L. reflexivity.
Qed.

(** X6: [getPersonaPrompt] returns a string exactly for the nine keys of its
    table, and then the table's own prompt; for every other key the result is
    not a string. *)
Theorem getPersonaPrompt_string_iff_known (k text : string) :
  OpenAIClient.getPersonaPrompt (Some k) = Js.VStr text <->
  Js.own OpenAIClient.personas k = Some (Js.VStr text).
Proof.
  split.
  - destruct (Js.own OpenAIClient.personas k) as [v|] eqn:O.
    + rewrite (getPersonaPrompt_known k v O). intros ->. reflexivity.
    + unfold OpenAIClient.getPersonaPrompt, Js.or, Js.lookup at 1 2. rewrite O.
      destruct (existsb (String.eqb k) Js.object_prototype); [discriminate|].
      destruct (k =? "__proto__"); discriminate.
  - apply getPersonaPrompt_known.
Qed.

Lemma replaceTags_clean (s : string) :
  OpenAIClient.has_tag s = false -> OpenAIClient.replaceTags s = s.
Proof.
  induction s as [|c r IH]; intros H.
  - reflexivity.
  - rewrite replaceTags_unfold. cbn [OpenAIClient.has_tag] in H.
    destruct (OpenAIClient.match_tag (String c r)); [discriminate|].
    rewrite (IH H). reflexivity.
Qed.

(** X7: the tag removal leaves a text unchanged exactly when the pattern
    [<[^>]*>] matches nowhere in it, and removing tags twice is the same as
    removing them once. *)
Theorem replaceTags_fixed_point (s : string) :
  (OpenAIClient.replaceTags s = s <-> OpenAIClient.has_tag s = false) /\
  OpenAIClient.replaceTags (OpenAIClient.replaceTags s) = OpenAIClient.replaceTags s.
Proof.
  split; [split|].
  - intros E. rewrite <- E. apply replaceTags_no_tag.
  - apply replaceTags_clean.
  - apply replaceTags_clean. apply replaceTags_no_tag.
Qed.

(** X8: whenever [processSuccessResponse] returns a Success, its text is a
    string in which the pattern [<[^>]*>] matches nowhere, and the result
    carries the elapsed time it was given and no error. *)
Theorem processSuccessResponse_text_clean (data : Js.value) (t : Q)
  (r : OpenAIClient.RoastResult) :
  OpenAIClient.processSuccessResponse data t = inl r ->
  OpenAIClient.success r = true ->
  exists text,
    OpenAIClient.roastText r = Some text /\
    OpenAIClient.has_tag text = false /\
    OpenAIClient.processingTimeMs r = Some t /\
    OpenAIClient.error r = None.
Proof.
  unfold OpenAIClient.processSuccessResponse.
  destruct (Js.get data "choices") as [choices | e]; [|discriminate].
  destruct (negb (Js.truthy choices) || negb (Js.truthy _)).
  - intros H. injection H as <-. discriminate.
  - destruct (Js.get_opt _ "content"); try discriminate.
    destruct (OpenAIClient.trim s =? "").
    + intros H. injection H as <-. discriminate.
    + intros H _. injection H as <-. eexists. cbn.
      repeat split. apply replaceTags_no_tag.
Qed.

(** X8 at a concrete input: markup inside a completion. *)
Lemma processSuccessResponse_text_clean_script :
  let data :=
    Scenario.completion (Js.VStr " Roast with <script>alert(1)</script> content ") 7 in
  let r := OpenAIClient.mkResult true (Some "Roast with alert(1) content") (Some 120) None in
  OpenAIClient.processSuccessResponse data 120 = inl r /\
  OpenAIClient.success r = true /\
  exists text,
    OpenAIClient.roastText r = Some text /\
    OpenAIClient.has_tag text = false /\
    OpenAIClient.processingTimeMs r = Some 120 /\
    OpenAIClient.error r = None.
Proof.
  intros data r.
  assert (E : OpenAIClient.processSuccessResponse data 120 = inl r) by reflexivity.
  split; [exact E|]. split; [reflexivity|].
  exact (processSuccessResponse_text_clean data 120 r E eq_refl).
Defined.

(** ** The client: more on dispatch and accounting *)

Section DispatchFacts.

Local Abbreviation retry_unfold := makeRequestWithRetry_unfold.

Import OpenAIClient.
Local Open Scope list_scope.

Variable env : Env RequestBody.
Variable makeRequest : string -> Init RequestBody -> M (World env) Response.
Variable apiKey : option string.

Local Abbreviation state := (OpenAIClient.state env).
Local Abbreviation request := (OpenAIClient.request env makeRequest apiKey).
Local Abbreviation retry := (makeRequestWithRetry env makeRequest apiKey).
Local Abbreviation generate := (generateRoast env makeRequest apiKey).
Local Abbreviation elapsed := (OpenAIClient.elapsed env).
Local Abbreviation caught := (OpenAIClient.caught env).

(** A response that the dispatch returns is one the transport returned. *)
Lemma makeRequestWithRetry_origin (body : RequestBody) (n : nat) (st st1 : state)
  (response : Response) :
  retry body n st = (inl response, st1) ->
  exists endpoint options w w',
    makeRequest endpoint options w = (inl response, w').
Proof.
  remember (maxRetries - n)%nat as fuel eqn:F.
  revert n st F. induction fuel as [|fuel IH]; intros n st F;
    rewrite retry_unfold;
    destruct (request body st) as [[r | e] st'] eqn:R;
    destruct (request_frame _ _ _ _ _ _ _ R) as (_ & _ & options & O).
  - intros H. injection H as <- <-. do 4 eexists. exact O.
  - assert (L : (n <? maxRetries)%nat = false) by (apply Nat.ltb_ge; lia).
    rewrite L. discriminate.
  - intros H. injection H as <- <-. do 4 eexists. exact O.
  - destruct ((n <? maxRetries)%nat && shouldRetry e) eqn:B; [|discriminate].
    apply andb_prop in B as [L _]. apply Nat.ltb_lt in L.
    apply (IH (S n)). lia.
Qed.

(** The kinds the [catch] block reports. *)
Lemma caught_kind (st st1 : state) :
  exists r,
    fst (caught st st1) = inl r /\ success r = false /\
    (option_map type (error r) = Some network_error \/
     option_map type (error r) = Some timeout_error).
Proof.
  unfold OpenAIClient.caught. cbn. eexists. split; [reflexivity|].
  split; [reflexivity|]. cbn. destruct (gt _ 10000); [right | left]; reflexivity.
Qed.

(** What [updateUsageStats(t, true, usage)] does to the two counters, whether
    it returns or throws. *)
Lemma updateUsageStats_counts (t : Q) (usage : Js.value) (st st2 : state)
  (o : unit + Js.error) :
  updateUsageStats env t true usage st = (o, st2) ->
  totalRequests (usageStats env st2) = (totalRequests (usageStats env st) + 1)%Z /\
  errorCount (usageStats env st2) = errorCount (usageStats env st) /\
  world env st2 = world env st /\ trace env st2 = trace env st.
Proof.
  unfold updateUsageStats.
  destruct (Js.get _ "total_tokens"); intros H; injection H as _ <-;
    cbn; repeat split.
Qed.

(** X9: whatever the transport does, one dispatch calls it at most three
    times, with waits of exactly 1000 ms and then 2000 ms between the calls,
    and never touches the usage counters. *)
Theorem makeRequestWithRetry_at_most_three (body : RequestBody) (st : state) :
  let st' := snd (retry body 0 st) in
  usageStats env st' = usageStats env st /\
  (trace env st' = trace env st ++ [Sent] \/
   trace env st' = trace env st ++ [Sent; Delayed 1000; Sent] \/
   trace env st' = trace env st ++ [Sent; Delayed 1000; Sent; Delayed 2000; Sent]).
Proof.
  intros st'. subst st'. split; [apply makeRequestWithRetry_stats|].
  rewrite retry_unfold.
  destruct (request body st) as [[r1 | e1] st1] eqn:R1;
    destruct (request_frame _ _ _ _ _ _ _ R1) as (_ & T1 & _);
    [left; exact T1|].
  destruct ((0 <? maxRetries)%nat && shouldRetry e1); [|left; exact T1].
  rewrite retry_unfold.
  destruct (request body (snd (delay env (backoff 0) st1))) as [[r2 | e2] st2] eqn:R2;
    destruct (request_frame _ _ _ _ _ _ _ R2) as (_ & T2 & _);
    cbn [snd delay trace] in T2; rewrite T1, <- !app_assoc in T2;
    [right; left; exact T2|].
  destruct ((1 <? maxRetries)%nat && shouldRetry e2); [|right; left; exact T2].
  rewrite retry_unfold.
  destruct (request body (snd (delay env (backoff 1) st2))) as [[r3 | e3] st3] eqn:R3;
    destruct (request_frame _ _ _ _ _ _ _ R3) as (_ & T3 & _);
    cbn [snd delay trace] in T3; rewrite T2, <- !app_assoc in T3;
    right; right; exact T3.
Qed.

(** X10: a thrown error whose message mentions 401 or 400 is not retried: the
    transport is called once and the call ends as one failed request of kind
    [network_error] (or [timeout]). *)
Theorem generateRoast_status_error_not_retried (img : option string)
  (opts : Options) (st st1 : state) (e : Js.error) (m : string) :
  validateInput img = ValidInput ->
  request (buildRequestBody img opts) st = (inr e, st1) ->
  Js.message e = Some m ->
  Js.includes m "401" = true \/ Js.includes m "400" = true ->
  exists r st',
    generate img opts st = (inl r, st') /\
    trace env st' = trace env st ++ [Sent] /\
    success r = false /\
    (option_map type (error r) = Some network_error \/
     option_map type (error r) = Some timeout_error) /\
    usageStats env st' = charged (usageStats env st) (elapsed st st').
Proof.
  intros V R M I.
  assert (S : shouldRetry e = false).
  { unfold shouldRetry. rewrite M. destruct I as [-> | ->]; [reflexivity|].
    apply andb_false_r. }
  destruct (request_frame _ _ _ _ _ _ _ R) as (U & T & _).
  assert (D : retry (buildRequestBody img opts) 0 st = (inr e, st1)).
  { rewrite retry_unfold, R, S, andb_false_r. reflexivity. }
  rewrite (generate_thrown env makeRequest apiKey img opts st st1 e V D).
  destruct (caught_kind st st1) as (r & C & F & K).
  exists r, (snd (caught st st1)).
  split; [rewrite <- C; apply surjective_pairing|].
  unfold OpenAIClient.caught. cbn [snd trace usageStats world].
  repeat split; try assumption.
  rewrite U. reflexivity.
Qed.

(** X11: two retryable failures followed by a response: the dispatch returns
    that response after three calls and waits of 1000 ms and 2000 ms. *)
Theorem makeRequestWithRetry_recovers (body : RequestBody)
  (st st1 st2 st3 : state) (e1 e2 : Js.error) (response : Response) :
  request body st = (inr e1, st1) -> shouldRetry e1 = true ->
  request body (snd (delay env 1000 st1)) = (inr e2, st2) -> shouldRetry e2 = true ->
  request body (snd (delay env 2000 st2)) = (inl response, st3) ->
  retry body 0 st = (inl response, st3) /\
  trace env st3 = trace env st ++ [Sent; Delayed 1000; Sent; Delayed 2000; Sent].
Proof.
  intros R1 S1 R2 S2 R3.
  destruct (request_frame _ _ _ _ _ _ _ R1) as (_ & T1 & _).
  destruct (request_frame _ _ _ _ _ _ _ R2) as (_ & T2 & _).
  destruct (request_frame _ _ _ _ _ _ _ R3) as (_ & T3 & _).
  split.
  - rewrite retry_unfold, R1, S1. cbn [Nat.ltb Nat.leb maxRetries andb].
    change (backoff 0) with 1000.
    rewrite retry_unfold, R2, S2. cbn [Nat.ltb Nat.leb maxRetries andb].
    change (backoff 1) with 2000.
    rewrite retry_unfold, R3. reflexivity.
  - rewrite T3. cbn [snd delay trace]. rewrite T2. cbn [snd delay trace].
    rewrite T1, <- !app_assoc. reflexivity.
Qed.

(** By how much one call moves the request and error counters. *)
Lemma generate_counts (img : option string) (opts : Options) (st : state) :
  exists dr de : Z,
    totalRequests (usageStats env (snd (generate img opts st)))
    = (totalRequests (usageStats env st) + dr)%Z /\
    errorCount (usageStats env (snd (generate img opts st)))
    = (errorCount (usageStats env st) + de)%Z /\
    (0 <= de <= dr)%Z /\ (dr <= 2)%Z.
Proof.
  destruct (validateInput img) as [|e] eqn:V.
  2: { rewrite (generate_rejected env makeRequest apiKey img opts st e V).
       exists 0%Z, 0%Z. cbn. repeat split; lia. }
  pose proof (makeRequestWithRetry_stats env makeRequest apiKey
                (buildRequestBody img opts) 0 st) as U.
  destruct (retry (buildRequestBody img opts) 0 st) as [[response | e] st1] eqn:R;
    cbn [snd] in U.
  2: { rewrite (generate_thrown env makeRequest apiKey img opts st st1 e V R).
       exists 1%Z, 1%Z. unfold OpenAIClient.caught. cbn. rewrite U.
       repeat split; lia. }
  assert (once : exists dr de : Z,
             totalRequests (usageStats env (snd (caught st st1)))
             = (totalRequests (usageStats env st) + dr)%Z /\
             errorCount (usageStats env (snd (caught st st1)))
             = (errorCount (usageStats env st) + de)%Z /\
             (0 <= de <= dr)%Z /\ (dr <= 2)%Z).
  { exists 1%Z, 1%Z. unfold OpenAIClient.caught. cbn. rewrite U.
    repeat split; lia. }
  destruct (ok response) eqn:K.
  - rewrite (generate_ok env makeRequest apiKey img opts st st1 response V R K).
    destruct (json response) as [data|]; [|exact once].
    destruct (processSuccessResponse data _) as [r | e]; [|exact once].
    destruct (Js.get data "usage") as [usage | e]; [|exact once].
    destruct (updateUsageStats env _ true usage st1) as [[u | e] st2] eqn:Up;
      destruct (updateUsageStats_counts _ _ _ _ _ Up) as (N & E & _ & _).
    + exists 1%Z, 0%Z. cbn [snd]. rewrite N, E, U. repeat split; lia.
    + exists 2%Z, 1%Z. unfold OpenAIClient.caught. cbn. rewrite N, E, U.
      repeat split; lia.
  - rewrite (generate_not_ok env makeRequest apiKey img opts st st1 response V R K).
    destruct (processErrorResponse response _ _) as [r | e]; [|exact once].
    exists 1%Z, 1%Z. cbn. rewrite U. repeat split; lia.
Qed.

Lemma rate_bounds (e t : Z) :
  (0 <= e <= t)%Z ->
  0 <= (if (t >? 0)%Z then inject_Z e / inject_Z t else 0) /\
  (if (t >? 0)%Z then inject_Z e / inject_Z t else 0) <= 1.
Proof.
  intros [L H]. destruct t as [|q|q]; cbn [Z.gtb Z.compare].
  - split; discriminate.
  - unfold Qle, Qdiv, Qmult, Qinv, inject_Z. cbn [Qnum Qden]. split; nia.
  - lia.
Qed.

(** X12: every call keeps [0 <= errorCount <= totalRequests]: it adds at most
    two requests and never more errors than requests, so the error rate that
    [getUsageStats] reports stays between 0 and 1. *)
Theorem usage_counters_invariant (img : option string) (opts : Options)
  (st : state) :
  (0 <= errorCount (usageStats env st) <= totalRequests (usageStats env st))%Z ->
  let u := usageStats env st in
  let u' := usageStats env (snd (generate img opts st)) in
  (0 <= errorCount u' <= totalRequests u')%Z /\
  (totalRequests u <= totalRequests u' <= totalRequests u + 2)%Z /\
  (errorCount u <= errorCount u')%Z /\
  0 <= errorRate (getUsageStats u') /\ errorRate (getUsageStats u') <= 1.
Proof.
  intros I u u'. subst u u'.
  destruct (generate_counts img opts st) as (dr & de & N & E & B & T).
  assert (I' : (0 <= errorCount (usageStats env (snd (generate img opts st)))
                <= totalRequests (usageStats env (snd (generate img opts st))))%Z)
    by (rewrite N, E; lia).
  split; [exact I'|]. split; [rewrite N; lia|]. split; [rewrite E; lia|].
  unfold getUsageStats. cbn [errorRate]. apply rate_bounds. exact I'.
Qed.

(** X13: a usable completion whose [usage] is [null] is booked twice: the
    accounting throws after counting the request, the [catch] block counts it
    again as a failure, and the caller gets [network_error] (or [timeout])
    instead of the roast. *)
Theorem generateRoast_null_usage_booked_twice (img : option string)
  (opts : Options) (st st1 : state) (response : Response) (data : Js.value)
  (r0 : RoastResult) :
  validateInput img = ValidInput ->
  request (buildRequestBody img opts) st = (inl response, st1) ->
  ok response = true ->
  json response = Some data ->
  processSuccessResponse data (elapsed st st1) = inl r0 ->
  Js.get data "usage" = inl Js.VNull ->
  exists r st',
    generate img opts st = (inl r, st') /\
    success r = false /\
    (option_map type (error r) = Some network_error \/
     option_map type (error r) = Some timeout_error) /\
    totalRequests (usageStats env st') = (totalRequests (usageStats env st) + 2)%Z /\
    errorCount (usageStats env st') = (errorCount (usageStats env st) + 1)%Z /\
    totalTokens (usageStats env st') = totalTokens (usageStats env st).
Proof.
  intros V R K J P G.
  destruct (request_frame _ _ _ _ _ _ _ R) as (U & _ & _).
  rewrite (generate_ok env makeRequest apiKey img opts st st1 response V
             (makeRequestWithRetry_response env makeRequest apiKey _ 0 _ _ _ R) K).
  rewrite J, P, G.
  destruct (updateUsageStats env (elapsed st st1) true Js.VNull st1)
    as [[u | e] st2] eqn:Up.
  - unfold updateUsageStats in Up. cbn in Up. discriminate Up.
  - destruct (caught_kind st st2) as (r & C & F & Kd).
    exists r, (snd (caught st st2)).
    split; [rewrite <- C; apply surjective_pairing|].
    split; [exact F|]. split; [exact Kd|].
    unfold updateUsageStats in Up. cbn in Up. injection Up as _ <-.
    unfold OpenAIClient.caught. cbn. rewrite U. repeat split; lia.
Qed.

(** X14: a response that is ok but whose body cannot be parsed, or parses to
    [null], is not reported as [invalid_response]: reading it throws, and the
    call ends as one failed request of kind [network_error] (or [timeout]). *)
Theorem generateRoast_unreadable_body (img : option string) (opts : Options)
  (st st1 : state) (response : Response) :
  validateInput img = ValidInput ->
  request (buildRequestBody img opts) st = (inl response, st1) ->
  ok response = true ->
  json response = None \/ json response = Some Js.VNull ->
  exists r st',
    generate img opts st = (inl r, st') /\
    success r = false /\
    (option_map type (error r) = Some network_error \/
     option_map type (error r) = Some timeout_error) /\
    usageStats env st' = charged (usageStats env st) (elapsed st st1).
Proof.
  intros V R K J.
  destruct (request_frame _ _ _ _ _ _ _ R) as (U & _ & _).
  rewrite (generate_ok env makeRequest apiKey img opts st st1 response V
             (makeRequestWithRetry_response env makeRequest apiKey _ 0 _ _ _ R) K).
  destruct (caught_kind st st1) as (r & C & F & Kd).
  assert (G : (inl r, snd (caught st st1)) = caught st st1)
    by (rewrite <- C; symmetry; apply surjective_pairing).
  destruct J as [-> | ->]; cbn [processSuccessResponse Js.get];
    exists r, (snd (caught st st1));
    (split; [symmetry; exact G|]); (split; [exact F|]); (split; [exact Kd|]);
    unfold OpenAIClient.caught; cbn; rewrite U; reflexivity.
Qed.

End DispatchFacts.

(** ** The client over the shipped dispatcher *)

Lemma processSuccessResponse_kinds (data : Js.value) (t : Q)
  (r : OpenAIClient.RoastResult) (e : OpenAIClient.error_info) :
  OpenAIClient.processSuccessResponse data t = inl r ->
  OpenAIClient.error r = Some e ->
  OpenAIClient.type e = OpenAIClient.invalid_response \/
  OpenAIClient.type e = OpenAIClient.empty_response.
Proof.
  unfold OpenAIClient.processSuccessResponse.
  destruct (Js.get data "choices") as [choices | x]; [|discriminate].
  destruct (negb (Js.truthy choices) || negb (Js.truthy _)).
  - intros H E. injection H as <-. injection E as <-. left. reflexivity.
  - destruct (Js.get_opt _ "content"); try discriminate.
    destruct (OpenAIClient.trim s =? "").
    + intros H E. injection H as <-. injection E as <-. right. reflexivity.
    + intros H E. injection H as <-. discriminate E.
Qed.

Lemma tryStrategies_ok {Body : Type} (env : Env Body) (p : CorsProxy.proxy)
  (strategies : list string) (endpoint : string) (options : Init Body)
  (w w' : World env) (response : Response) :
  CorsProxy.tryStrategies env p strategies endpoint options w = (inl response, w') ->
  ok response = true.
Proof.
  revert w. induction strategies as [|s rest IH]; intros w;
    cbn [CorsProxy.tryStrategies]; [discriminate|].
  destruct (CorsProxy.executeStrategy env p s endpoint options w)
    as [[r | e] w1]; [|apply IH].
  destruct (ok r) eqn:K; [|apply IH].
  intros H. injection H as <- <-. exact K.
Qed.

(** X15: over the shipped dispatcher the client never reports [rate_limit],
    [api_error], [content_policy] or [service_unavailable]: the error of any
    Failure is one of [invalid_input], [image_too_large], [invalid_response],
    [empty_response], [network_error] and [timeout]. *)
Theorem shipped_client_never_reports_rejection
  (env : Env OpenAIClient.RequestBody) (p : CorsProxy.proxy)
  (apiKey : option string) (img : option string) (opts : OpenAIClient.Options)
  (st st' : OpenAIClient.state env) (r : OpenAIClient.RoastResult)
  (e : OpenAIClient.error_info) :
  OpenAIClient.generateRoast env (CorsProxy.makeRequest env p) apiKey img opts st
  = (inl r, st') ->
  OpenAIClient.error r = Some e ->
  In (OpenAIClient.type e)
    [ OpenAIClient.invalid_input; OpenAIClient.image_too_large;
      OpenAIClient.invalid_response; OpenAIClient.empty_response;
      OpenAIClient.network_error; OpenAIClient.timeout_error ].
Proof.
  set (send := CorsProxy.makeRequest env p).
  assert (from_catch : forall a b r' s',
             OpenAIClient.caught env a b = (inl r', s') ->
             OpenAIClient.error r' = Some e ->
             In (OpenAIClient.type e)
               [ OpenAIClient.invalid_input; OpenAIClient.image_too_large;
                 OpenAIClient.invalid_response; OpenAIClient.empty_response;
                 OpenAIClient.network_error; OpenAIClient.timeout_error ]).
  { intros a b r' s'. unfold OpenAIClient.caught. intros H E.
    injection H as <- _. cbn in E. injection E as <-.
    destruct (OpenAIClient.gt _ 10000); cbn; tauto. }
  destruct (OpenAIClient.validateInput img) as [|x] eqn:V.
  2: { rewrite (generate_rejected env send apiKey img opts st x V).
       intros H E. injection H as <- _. cbn in E. injection E as <-.
       pose proof (validateInput_kinds env send img x V) as K. cbn in K |- *. tauto. }
  destruct (OpenAIClient.makeRequestWithRetry env send apiKey
              (OpenAIClient.buildRequestBody img opts) 0 st)
    as [[response | x] st1] eqn:R.
  2: { rewrite (generate_thrown env send apiKey img opts st st1 x V R).
       apply from_catch. }
  destruct (makeRequestWithRetry_origin env send apiKey _ _ _ _ _ R)
    as (endpoint & options & w & w' & O).
  pose proof (tryStrategies_ok env p _ _ _ _ _ _ O) as K.
  rewrite (generate_ok env send apiKey img opts st st1 response V R K).
  destruct (json response) as [data|]; [|apply from_catch].
  destruct (OpenAIClient.processSuccessResponse data _) as [r0 | x] eqn:P;
    [|apply from_catch].
  destruct (Js.get data "usage") as [usage | x]; [|apply from_catch].
  destruct (OpenAIClient.updateUsageStats env _ true usage st1) as [[u | x] st2];
    [|apply from_catch].
  intros H E. injection H as <- _.
  destruct (processSuccessResponse_kinds _ _ _ _ P E) as [-> | ->]; cbn; tauto.
Qed.

(** X16: where the [jest] global is defined the default dispatcher is the mock
    strategy with no fallback, built without a probe; every valid image then
    gets the canned roast after the 100 ms timer, with one transport call and
    117 tokens booked, whatever [fetch] would answer. *)
Theorem generateRoast_under_jest (env : Env OpenAIClient.RequestBody)
  (apiKey : option string) (img : option string) (opts : OpenAIClient.Options)
  (st : OpenAIClient.state env) (w0 : World env) :
  jest_defined env = true ->
  OpenAIClient.validateInput img = OpenAIClient.ValidInput ->
  let built := CorsProxy.new env (CorsProxy.mkConfig None None None) w0 in
  built = (CorsProxy.mkProxy "mock" "/api/proxy" [], w0) /\
  exists st',
    OpenAIClient.generateRoast env (CorsProxy.makeRequest env (fst built))
      apiKey img opts st
    = (inl (OpenAIClient.mkResult true
              (Some "This is a mock roast response for testing purposes! Your photo is so generic, it could be the default wallpaper for disappointment.")
              (Some (OpenAIClient.elapsed env st st')) None),
       st') /\
    OpenAIClient.world env st' = sleep env 100 (OpenAIClient.world env st) /\
    OpenAIClient.trace env st' = (OpenAIClient.trace env st ++ [OpenAIClient.Sent])%list /\
    OpenAIClient.usageStats env st'
    = OpenAIClient.credited (OpenAIClient.usageStats env st)
        (OpenAIClient.elapsed env st st') (OpenAIClient.Num 117).
Proof.
  intros J V built.
  assert (B : built = (CorsProxy.mkProxy "mock" "/api/proxy" [], w0)).
  { subst built. unfold CorsProxy.new, CorsProxy.detectBestStrategy,
      CorsProxy.getDefaultFallbacks. cbn. rewrite J. reflexivity. }
  split; [exact B|]. rewrite B. cbn [fst].
  set (send := CorsProxy.makeRequest env (CorsProxy.mkProxy "mock" "/api/proxy" [])).
  set (created := (Date_now env (sleep env 100 (OpenAIClient.world env st)) / 1000)%Z).
  set (st1 := OpenAIClient.mkState env (sleep env 100 (OpenAIClient.world env st))
                (OpenAIClient.usageStats env st)
                (OpenAIClient.trace env st ++ [OpenAIClient.Sent])%list).
  assert (R : OpenAIClient.request env send apiKey
                (OpenAIClient.buildRequestBody img opts) st
              = (inl (mkResponse true 200 (Some (CorsProxy.mockData created))), st1))
    by reflexivity.
  rewrite (generate_ok env send apiKey img opts st st1 _ V
             (makeRequestWithRetry_response env send apiKey _ 0 _ _ _ R) eq_refl).
  cbn [json].
  assert (P : forall t,
             OpenAIClient.processSuccessResponse (CorsProxy.mockData created) t
             = inl (OpenAIClient.mkResult true
                      (Some "This is a mock roast response for testing purposes! Your photo is so generic, it could be the default wallpaper for disappointment.")
                      (Some t) None)).
  { intros t. vm_compute. reflexivity. }
  rewrite P.
  exists (OpenAIClient.mkState env (sleep env 100 (OpenAIClient.world env st))
            (OpenAIClient.credited (OpenAIClient.usageStats env st)
               (OpenAIClient.elapsed env st st1) (OpenAIClient.Num 117))
            (OpenAIClient.trace env st ++ [OpenAIClient.Sent])%list).
  repeat split.
Qed.

(** ** The image processor *)

Section ImageProcessorFacts.

Import ImageProcessor.

(** X17: [activeReaders] is back at its value once a conversion has settled,
    except when the timer fires first and the reader, which is not aborted,
    reports afterwards: then the counter is decremented a second time and ends
    one below where it started.  A file that fails the checks starts no reader
    and leaves the instance untouched. *)
Theorem convertToBase64_active_readers (file : option File) (startTime : Q)
  (today : Z) (order : schedule) (p : processor) :
  let p' := snd (convertToBase64 file startTime today order p) in
  let accepted :=
    match file with
    | Some f =>
        (present (name f) || present (fileName f))
        && match size f, type f with Some _, Some _ => true | _, _ => false end
    | None => false
    end in
  (accepted = false -> p' = p) /\
  (accepted = true ->
   activeReaders p'
   = match order with
     | TimerFirst (Some _) => activeReaders p - 1
     | _ => activeReaders p
     end)%Z.
Proof.
  intros p' accepted. subst p' accepted. unfold convertToBase64.
  destruct file as [f|]; [|split; [reflexivity | discriminate]].
  destruct (present (name f) || present (fileName f)), (size f), (type f);
    cbn [andb]; split; intros H; try discriminate H; try reflexivity.
  destruct order as [[result at_ms | at_ms date] | [[result at_ms | at_ms date] |]];
    cbn; lia.
Qed.

(** X18: the metrics keep [successCount + errorCount = totalProcessed] with
    both counts non-negative through every conversion, whatever the file and
    the order of the callbacks, so the success rate that
    [getPerformanceMetrics] reports stays between 0 and 1; a conversion is
    counted exactly when the reader reported, also after a timeout. *)
Theorem convertToBase64_metrics (file : option File) (startTime : Q)
  (today : Z) (order : schedule) (p : processor) :
  let m := performanceMetrics p in
  (0 <= successCount m /\ 0 <= errorCount m /\
   successCount m + errorCount m = totalProcessed m)%Z ->
  let p' := snd (convertToBase64 file startTime today order p) in
  let m' := performanceMetrics p' in
  (0 <= successCount m' /\ 0 <= errorCount m' /\
   successCount m' + errorCount m' = totalProcessed m')%Z /\
  (totalProcessed m <= totalProcessed m' <= totalProcessed m + 1)%Z /\
  (order = TimerFirst None -> m' = m) /\
  0 <= successRate (getPerformanceMetrics p') /\
  successRate (getPerformanceMetrics p') <= 1.
Proof.
  intros m I p' m'. subst m p' m'.
  assert (G : let m' := performanceMetrics
                          (snd (convertToBase64 file startTime today order p)) in
              (0 <= successCount m' /\ 0 <= errorCount m' /\
               successCount m' + errorCount m' = totalProcessed m')%Z /\
              (totalProcessed (performanceMetrics p) <= totalProcessed m'
               <= totalProcessed (performanceMetrics p) + 1)%Z /\
              (order = TimerFirst None -> m' = performanceMetrics p)).
  { unfold convertToBase64.
    destruct file as [f|]; [|cbn; repeat split; lia].
    destruct (present (name f) || present (fileName f)), (size f), (type f);
      try (cbn; repeat split; lia).
    destruct order as [[result at_ms | at_ms date] | [[result at_ms | at_ms date] |]];
      cbn; repeat split; try lia; try discriminate. }
  cbv zeta in G. destruct G as (I' & N & T).
  repeat split; try tauto; try lia.
  - unfold getPerformanceMetrics. cbn [successRate]. apply rate_bounds. lia.
  - unfold getPerformanceMetrics. cbn [successRate]. apply rate_bounds. lia.
Qed.

End ImageProcessorFacts.

(** ** Concrete runs of the properties above *)

(** X10 at a concrete input: the transport throws an error that names 401. *)
Lemma generateRoast_status_error_not_retried_run :
  let net := Cases.always_throws_401 in
  let env := Scenario.browser net in
  let send := Scenario.scripted_fetch net in
  let st := Scenario.fresh net in
  let body := OpenAIClient.buildRequestBody Scenario.image OpenAIClient.no_options in
  let first := OpenAIClient.request env send (Some "sk-test") body st in
  let e := Js.Error (Some "Request failed with status 401") in
  OpenAIClient.validateInput Scenario.image = OpenAIClient.ValidInput /\
  first = (inr e, snd first) /\
  Js.includes "Request failed with status 401" "401" = true /\
  exists r st',
    OpenAIClient.generateRoast env send (Some "sk-test") Scenario.image
      OpenAIClient.no_options st = (inl r, st') /\
    OpenAIClient.trace env st' = (OpenAIClient.trace env st ++ [OpenAIClient.Sent])%list /\
    OpenAIClient.success r = false /\
    (option_map OpenAIClient.type (OpenAIClient.error r) = Some OpenAIClient.network_error \/
     option_map OpenAIClient.type (OpenAIClient.error r) = Some OpenAIClient.timeout_error) /\
    OpenAIClient.usageStats env st'
    = OpenAIClient.charged (OpenAIClient.usageStats env st)
        (OpenAIClient.elapsed env st st').
Proof.
  intros net env send st body first e.
  assert (R : first = (inr e, snd first)) by reflexivity.
  split; [reflexivity|]. split; [exact R|]. split; [reflexivity|].
  exact (generateRoast_status_error_not_retried env send (Some "sk-test")
           Scenario.image OpenAIClient.no_options st (snd first) e
           "Request failed with status 401" eq_refl R eq_refl (or_introl eq_refl)).
Defined.

(** X11 at a concrete input: two network failures, then a completion. *)
Lemma makeRequestWithRetry_recovers_run :
  let net := Cases.down_twice_then_nice in
  let env := Scenario.browser net in
  let send := Scenario.scripted_fetch net in
  let st := Scenario.fresh net in
  let body := OpenAIClient.buildRequestBody Scenario.image OpenAIClient.no_options in
  let request := OpenAIClient.request env send (Some "sk-test") body in
  let e := Js.Error (Some "Network error") in
  let st1 := snd (request st) in
  let st2 := snd (request (snd (OpenAIClient.delay env 1000 st1))) in
  let st3 := snd (request (snd (OpenAIClient.delay env 2000 st2))) in
  let response :=
    mkResponse true 200 (Some (Scenario.completion (Js.VStr "Nice hat.") 50)) in
  request st = (inr e, st1) /\
  OpenAIClient.shouldRetry e = true /\
  request (snd (OpenAIClient.delay env 1000 st1)) = (inr e, st2) /\
  request (snd (OpenAIClient.delay env 2000 st2)) = (inl response, st3) /\
  OpenAIClient.makeRequestWithRetry env send (Some "sk-test") body 0 st
  = (inl response, st3) /\
  OpenAIClient.trace env st3
  = (OpenAIClient.trace env st
     ++ [OpenAIClient.Sent; OpenAIClient.Delayed 1000; OpenAIClient.Sent;
         OpenAIClient.Delayed 2000; OpenAIClient.Sent])%list.
Proof.
  intros net env send st body request e st1 st2 st3 response.
  assert (R1 : request st = (inr e, st1)) by reflexivity.
  assert (R2 : request (snd (OpenAIClient.delay env 1000 st1)) = (inr e, st2))
    by reflexivity.
  assert (R3 : request (snd (OpenAIClient.delay env 2000 st2)) = (inl response, st3))
    by reflexivity.
  split; [exact R1|]. split; [reflexivity|]. split; [exact R2|]. split; [exact R3|].
  exact (makeRequestWithRetry_recovers env send (Some "sk-test") body
           st st1 st2 st3 e e response R1 eq_refl R2 eq_refl R3).
Defined.

(** X12 at a concrete input: a fresh client and one successful call. *)
Lemma usage_counters_invariant_run :
  let net := Scenario.always_nice in
  let env := Scenario.browser net in
  let send := Scenario.scripted_fetch net in
  let st := Scenario.fresh net in
  let u := OpenAIClient.usageStats env st in
  let u' :=
    OpenAIClient.usageStats env
      (snd (OpenAIClient.generateRoast env send (Some "sk-test") Scenario.image
              OpenAIClient.no_options st)) in
  (0 <= OpenAIClient.errorCount u <= OpenAIClient.totalRequests u)%Z /\
  (0 <= OpenAIClient.errorCount u' <= OpenAIClient.totalRequests u')%Z /\
  (OpenAIClient.totalRequests u <= OpenAIClient.totalRequests u'
   <= OpenAIClient.totalRequests u + 2)%Z /\
  (OpenAIClient.errorCount u <= OpenAIClient.errorCount u')%Z /\
  0 <= OpenAIClient.errorRate (OpenAIClient.getUsageStats u') /\
  OpenAIClient.errorRate (OpenAIClient.getUsageStats u') <= 1.
Proof.
  intros net env send st u u'.
  assert (I : (0 <= OpenAIClient.errorCount u <= OpenAIClient.totalRequests u)%Z)
    by (cbn; lia).
  split; [exact I|].
  exact (usage_counters_invariant env send (Some "sk-test") Scenario.image
           OpenAIClient.no_options st I).
Defined.

(** X13 at a concrete input: a completion with [usage: null]. *)
Lemma generateRoast_null_usage_booked_twice_run :
  let net := Cases.always_null_usage in
  let env := Scenario.browser net in
  let send := Scenario.scripted_fetch net in
  let st := Scenario.fresh net in
  let body := OpenAIClient.buildRequestBody Scenario.image OpenAIClient.no_options in
  let first := OpenAIClient.request env send (Some "sk-test") body st in
  let data := Cases.completion_null_usage "Nice hat." in
  let response := mkResponse true 200 (Some data) in
  first = (inl response, snd first) /\
  OpenAIClient.processSuccessResponse data (OpenAIClient.elapsed env st (snd first))
  = inl (OpenAIClient.mkResult true (Some "Nice hat.")
           (Some (OpenAIClient.elapsed env st (snd first))) None) /\
  Js.get data "usage" = inl Js.VNull /\
  exists r st',
    OpenAIClient.generateRoast env send (Some "sk-test") Scenario.image
      OpenAIClient.no_options st = (inl r, st') /\
    OpenAIClient.success r = false /\
    (option_map OpenAIClient.type (OpenAIClient.error r) = Some OpenAIClient.network_error \/
     option_map OpenAIClient.type (OpenAIClient.error r) = Some OpenAIClient.timeout_error) /\
    OpenAIClient.totalRequests (OpenAIClient.usageStats env st')
    = (OpenAIClient.totalRequests (OpenAIClient.usageStats env st) + 2)%Z /\
    OpenAIClient.errorCount (OpenAIClient.usageStats env st')
    = (OpenAIClient.errorCount (OpenAIClient.usageStats env st) + 1)%Z /\
    OpenAIClient.totalTokens (OpenAIClient.usageStats env st')
    = OpenAIClient.totalTokens (OpenAIClient.usageStats env st).
Proof.
  intros net env send st body first data response.
  assert (R : first = (inl response, snd first)) by reflexivity.
  assert (P : OpenAIClient.processSuccessResponse data
                (OpenAIClient.elapsed env st (snd first))
              = inl (OpenAIClient.mkResult true (Some "Nice hat.")
                       (Some (OpenAIClient.elapsed env st (snd first))) None))
    by reflexivity.
  split; [exact R|]. split; [exact P|]. split; [reflexivity|].
  exact (generateRoast_null_usage_booked_twice env send (Some "sk-test")
           Scenario.image OpenAIClient.no_options st (snd first) response data _
           eq_refl R eq_refl eq_refl P eq_refl).
Defined.

(** X14 at a concrete input: a 200 response whose body is not JSON. *)
Lemma generateRoast_unreadable_body_run :
  let net := Cases.always_unparseable in
  let env := Scenario.browser net in
  let send := Scenario.scripted_fetch net in
  let st := Scenario.fresh net in
  let body := OpenAIClient.buildRequestBody Scenario.image OpenAIClient.no_options in
  let first := OpenAIClient.request env send (Some "sk-test") body st in
  first = (inl (mkResponse true 200 None), snd first) /\
  exists r st',
    OpenAIClient.generateRoast env send (Some "sk-test") Scenario.image
      OpenAIClient.no_options st = (inl r, st') /\
    OpenAIClient.success r = false /\
    (option_map OpenAIClient.type (OpenAIClient.error r) = Some OpenAIClient.network_error \/
     option_map OpenAIClient.type (OpenAIClient.error r) = Some OpenAIClient.timeout_error) /\
    OpenAIClient.usageStats env st'
    = OpenAIClient.charged (OpenAIClient.usageStats env st)
        (OpenAIClient.elapsed env st (snd first)).
Proof.
  intros net env send st body first.
  assert (R : first = (inl (mkResponse true 200 None), snd first)) by reflexivity.
  split; [exact R|].
  exact (generateRoast_unreadable_body env send (Some "sk-test") Scenario.image
           OpenAIClient.no_options st (snd first) (mkResponse true 200 None)
           eq_refl R eq_refl (or_introl eq_refl)).
Defined.

(** X15 at a concrete input: the API answers 429 to every call of the shipped
    client. *)
Lemma shipped_client_never_reports_rejection_run :
  let run := Scenario.roast Scenario.always_429 Scenario.image OpenAIClient.no_options in
  let r :=
    OpenAIClient.failure 3300
      (OpenAIClient.mkError OpenAIClient.network_error "Network request failed" None) in
  run = (inl r, snd run) /\
  In OpenAIClient.network_error
    [ OpenAIClient.invalid_input; OpenAIClient.image_too_large;
      OpenAIClient.invalid_response; OpenAIClient.empty_response;
      OpenAIClient.network_error; OpenAIClient.timeout_error ].
Proof.
  intros run r.
  assert (R : run = (inl r, snd run)) by reflexivity.
  split; [exact R|].
  exact (shipped_client_never_reports_rejection
           (Scenario.browser Scenario.always_429)
           (fst (Scenario.corsProxy Scenario.always_429)) (Some "sk-test")
           Scenario.image OpenAIClient.no_options
           (Scenario.shipped Scenario.always_429) (snd run) r _ R eq_refl).
Defined.

(** X16 at a concrete input: a test runner whose [fetch] is down. *)
Lemma generateRoast_under_jest_run :
  let env := Cases.under_jest Scenario.always_down in
  let st := OpenAIClient.mkState env Scenario.start OpenAIClient.new_stats [] in
  let built := CorsProxy.new env (CorsProxy.mkConfig None None None) Scenario.start in
  jest_defined env = true /\
  OpenAIClient.validateInput Scenario.image = OpenAIClient.ValidInput /\
  built = (CorsProxy.mkProxy "mock" "/api/proxy" [], Scenario.start) /\
  exists st',
    OpenAIClient.generateRoast env (CorsProxy.makeRequest env (fst built))
      (Some "sk-test") Scenario.image OpenAIClient.no_options st
    = (inl (OpenAIClient.mkResult true
              (Some "This is a mock roast response for testing purposes! Your photo is so generic, it could be the default wallpaper for disappointment.")
              (Some (OpenAIClient.elapsed env st st')) None),
       st') /\
    OpenAIClient.world env st' = sleep env 100 (OpenAIClient.world env st) /\
    OpenAIClient.trace env st' = (OpenAIClient.trace env st ++ [OpenAIClient.Sent])%list /\
    OpenAIClient.usageStats env st'
    = OpenAIClient.credited (OpenAIClient.usageStats env st)
        (OpenAIClient.elapsed env st st') (OpenAIClient.Num 117).
Proof.
  intros env st built.
  split; [reflexivity|]. split; [reflexivity|].
  exact (generateRoast_under_jest env (Some "sk-test") Scenario.image
           OpenAIClient.no_options st Scenario.start eq_refl eq_refl).
Defined.

(** X18 at a concrete input: a timeout followed by a late load, on a new
    instance. *)
Lemma convertToBase64_metrics_run :
  let file :=
    Some (ImageProcessor.mkFile (Some "photo.jpg") None (Some 1200000%Z)
            (Some "image/jpeg")) in
  let order :=
    ImageProcessor.TimerFirst
      (Some (ImageProcessor.Loaded "data:image/jpeg;base64,AAAA" 12000)) in
  let p := ImageProcessor.new in
  let m := ImageProcessor.performanceMetrics p in
  let p' := snd (ImageProcessor.convertToBase64 file 0 0%Z order p) in
  let m' := ImageProcessor.performanceMetrics p' in
  (0 <= ImageProcessor.successCount m /\ 0 <= ImageProcessor.errorCount m /\
   ImageProcessor.successCount m + ImageProcessor.errorCount m
   = ImageProcessor.totalProcessed m)%Z /\
  (0 <= ImageProcessor.successCount m' /\ 0 <= ImageProcessor.errorCount m' /\
   ImageProcessor.successCount m' + ImageProcessor.errorCount m'
   = ImageProcessor.totalProcessed m')%Z /\
  (ImageProcessor.totalProcessed m <= ImageProcessor.totalProcessed m'
   <= ImageProcessor.totalProcessed m + 1)%Z /\
  (order = ImageProcessor.TimerFirst None -> m' = m) /\
  0 <= ImageProcessor.successRate (ImageProcessor.getPerformanceMetrics p') /\
  ImageProcessor.successRate (ImageProcessor.getPerformanceMetrics p') <= 1.
Proof.
  intros file order p m p' m'.
  assert (I : (0 <= ImageProcessor.successCount m /\ 0 <= ImageProcessor.errorCount m /\
               ImageProcessor.successCount m + ImageProcessor.errorCount m
               = ImageProcessor.totalProcessed m)%Z) by (cbn; lia).
  split; [exact I|].
  exact (convertToBase64_metrics file 0 0%Z order p I).
Defined.

(** The same run as seen by the caller and by [getMemoryUsage]: the promise
    resolved to a timeout, the metrics count a success, and [activeReaders] is
    below zero. *)
Example convertToBase64_late_load :
  let file :=
    Some (ImageProcessor.mkFile (Some "photo.jpg") None (Some 1200000%Z)
            (Some "image/jpeg")) in
  let order :=
    ImageProcessor.TimerFirst
      (Some (ImageProcessor.Loaded "data:image/jpeg;base64,AAAA" 12000)) in
  let run := ImageProcessor.convertToBase64 file 0 0%Z order ImageProcessor.new in
  option_map ImageProcessor.kind (ImageProcessor.error (fst run))
  = Some ImageProcessor.timeout /\
  ImageProcessor.successCount (ImageProcessor.performanceMetrics (snd run)) = 1%Z /\
  ImageProcessor.activeReaders (snd run) = (-1)%Z.
Proof. repeat split. Qed.

(** X21 at a concrete input: the API answers 429 to every call. *)
Lemma generateRoast_retries_rejections_429 :
  let net := Scenario.always_429 in
  let env := Scenario.browser net in
  let p := fst (Scenario.corsProxy net) in
  let st := Scenario.shipped net in
  (forall url init w,
      match fst (fetch env url init w) with
      | inl response => ok response = false
      | inr _ => True
      end) /\
  ~ In CorsProxy.MOCK (CorsProxy.strategy p :: CorsProxy.fallbackStrategies p) /\
  OpenAIClient.validateInput Scenario.image = OpenAIClient.ValidInput /\
  exists r st',
    OpenAIClient.generateRoast env (CorsProxy.makeRequest env p) (Some "sk-test")
      Scenario.image OpenAIClient.no_options st
    = (inl r, st') /\
    OpenAIClient.trace env st'
    = (OpenAIClient.trace env st
       ++ [OpenAIClient.Sent; OpenAIClient.Delayed 1000; OpenAIClient.Sent;
           OpenAIClient.Delayed 2000; OpenAIClient.Sent])%list /\
    (option_map OpenAIClient.type (OpenAIClient.error r) = Some OpenAIClient.network_error \/
     option_map OpenAIClient.type (OpenAIClient.error r) = Some OpenAIClient.timeout_error).
Proof.
  intros net env p st.
  assert (net_down : forall url init w,
             match fst (fetch env url init w) with
             | inl response => ok response = false
             | inr _ => True
             end) by (intros url init w; reflexivity).
  assert (nomock : ~ In CorsProxy.MOCK
                       (CorsProxy.strategy p :: CorsProxy.fallbackStrategies p))
    by (intros [H | [H | []]]; discriminate H).
  split; [exact net_down|]. split; [exact nomock|]. split; [reflexivity|].
  exact (generateRoast_retries_rejections env p (Some "sk-test") Scenario.image
           OpenAIClient.no_options st net_down nomock eq_refl).
Defined.

(** ** Acceptance of a file, and the requests of the shipped dispatcher *)


(** Acceptance at concrete objects: a negative size passes, and so do text bytes
    under an image type; an object without [slice] makes the call throw; an
    object without an own [name], as a genuine [File] is, is refused. *)
Example validateFile_accepts_runs :
  let run f := FileValidator.validateFile Filename.sanitizeFilename (Some f) in
  let no_slice := Js.Error (Some "file.slice is not a function") in
  run (FileValidator.mkFile (Some "photo.jpg") (FileValidator.Number (-1))
         (Some "image/png") (FileValidator.Loaded [ 137; 80; 78; 71 ]%Z))
  = inl (FileValidator.Valid
           (Some ("photo.jpg", FileValidator.mkInfo (-1) "image/png" "photo.jpg"))) /\
  run (FileValidator.mkFile (Some "fake.jpg") (FileValidator.Number 20)
         (Some "image/jpeg") (FileValidator.Loaded [ 84; 104; 105; 115 ]%Z))
  = inl (FileValidator.Valid
           (Some ("fake.jpg", FileValidator.mkInfo 20 "image/jpeg" "fake.jpg"))) /\
  run (FileValidator.mkFile (Some "photo.jpg") (FileValidator.Number 1024)
         (Some "image/jpeg") (FileValidator.Threw no_slice))
  = inr no_slice /\
  run (FileValidator.mkFile None (FileValidator.Number 1024)
         (Some "image/jpeg") (FileValidator.Loaded [ 255; 216; 255; 224 ]%Z))
  = inl (FileValidator.Invalid FileValidator.file_invalid
           "Invalid file object provided").
Proof. repeat split. Qed.

(** X23: whatever the network does, one call of the shipped dispatcher in a
    browser asks the backend path first and returns its response when that is
    ok; otherwise it asks the API itself and returns that response when it is
    ok, and throws the generic error when it is not.  It contacts nothing
    else, neither the public relay nor the mock. *)
Theorem shipped_makeRequest_fetches (net : Scenario.script) (endpoint : string)
  (options : Init OpenAIClient.RequestBody) (w : Scenario.world) :
  let env := Scenario.browser net in
  let p := fst (Scenario.corsProxy net) in
  let run := CorsProxy.makeRequest env p endpoint options w in
  let backend := ("/api/proxy/" ++ endpoint)%string in
  let api := ("https://api.openai.com/v1/" ++ endpoint)%string in
  let k := List.length (Scenario.fetched w) in
  let usable (outcome : Response + Js.error) :=
    match outcome with
    | inl response => ok response
    | inr _ => false
    end in
  (usable (snd (net k)) = true /\
   Scenario.fetched (snd run) = (Scenario.fetched w ++ [backend])%list /\
   fst run = snd (net k)) \/
  (usable (snd (net k)) = false /\
   Scenario.fetched (snd run) = (Scenario.fetched w ++ [backend; api])%list /\
   fst run = if usable (snd (net (S k))) then snd (net (S k))
             else inr (Js.Error (Some "All proxy strategies failed"))).
Proof.
  intros env p run backend api k usable.
  assert (P : p = CorsProxy.mkProxy "custom" "/api/proxy" [ "direct" ]).
  { subst p. unfold Scenario.corsProxy, CorsProxy.new, CorsProxy.detectBestStrategy,
      CorsProxy.isCustomProxyAvailable.
    cbn [CorsProxy.cfg_strategy jest_defined Scenario.browser fetch].
    unfold Scenario.scripted_fetch. cbn [Scenario.fetched Scenario.start List.length].
    destruct (net 0%nat) as [d [r|e]]; reflexivity. }
  assert (L : forall url : string,
             List.length (Scenario.fetched w ++ [url])%list = S k).
  { intros url. rewrite List.length_app. cbn. subst k. lia. }
  subst run. rewrite P.
  unfold CorsProxy.makeRequest. cbn [CorsProxy.strategy CorsProxy.fallbackStrategies].
  cbn [CorsProxy.tryStrategies].
  change (CorsProxy.executeStrategy env (CorsProxy.mkProxy "custom" "/api/proxy" ["direct"])
            "custom" endpoint options w)
    with (Scenario.scripted_fetch net backend
            (mkInit (method options)
               (set_header (headers options) "Content-Type" "application/json")
               (body options) (mode options) (timeout options)) w).
  set (direct := CorsProxy.executeStrategy env _ "direct" endpoint options).
  assert (D : forall d,
             direct (Scenario.mkWorld d (Scenario.fetched w ++ [backend])%list)
             = (snd (net (S k)),
                Scenario.mkWorld (d + fst (net (S k)))
                  ((Scenario.fetched w ++ [backend]) ++ [api])%list)).
  { intros d. subst direct. unfold CorsProxy.executeStrategy. cbn.
    unfold Scenario.scripted_fetch. cbn [Scenario.fetched Scenario.clock].
    rewrite L. destruct (net (S k)) as [d2 o2]. reflexivity. }
  assert (F : forall d,
             let rest :=
               match direct (Scenario.mkWorld d (Scenario.fetched w ++ [backend])%list) with
               | (inl response, w') =>
                   if ok response then (inl response, w')
                   else (inr (Js.Error (Some "All proxy strategies failed")), w')
               | (inr _, w') =>
                   (inr (Js.Error (Some "All proxy strategies failed")), w')
               end in
             Scenario.fetched (snd rest) = (Scenario.fetched w ++ [backend; api])%list /\
             fst rest = if usable (snd (net (S k))) then snd (net (S k))
                        else inr (Js.Error (Some "All proxy strategies failed"))).
  { intros d. cbv zeta. rewrite D. subst usable. cbv beta.
    destruct (snd (net (S k))) as [r2|e2]; [destruct (ok r2) eqn:K2|];
      cbn [fst snd Scenario.fetched]; rewrite <- ?app_assoc; split; reflexivity. }
  unfold Scenario.scripted_fetch.
  change (List.length (Scenario.fetched w)) with k.
  destruct (net k) as [d1 [r1|e1]] eqn:N1; cbn [snd usable]; subst usable; cbv beta.
  - destruct (ok r1) eqn:K1.
    + left. repeat split; reflexivity.
    + right. split; [reflexivity|]. apply F.
  - right. split; [reflexivity|]. apply F.
Qed.
